(** * Sultan: command composition, rendering and execution

    A shallow embedding of [src/sultan/api.py]: the token classes
    ([Command], [Pipe], [And], [Or], [Redirect]), the builder [Sultan]
    with its command buffer and context stack, the rendering method
    [Sultan.__str__], the executor [Sultan.run], the constructor
    [Sultan.load] and the [Config]/[SSHConfig] helpers.

    Conventions of the embedding.
    - A Python [str] is a [string]; a character of the model is a code
      point below 256, so that [String.length] is Python's [len] and the
      white space of [str.strip] is the white space of those code points.
    - Stateful methods are computations of the monad [M]: they take the
      machine state (the builder object and the host's logs) and return
      an outcome, a value or a raised exception, with the new state.  A
      raise keeps the state reached so far, as in Python.
    - What the host decides (the login name and whether there is one,
      which paths exist, the inherited environment, what the spawned
      shell answers) is a field of the record [Host]; theorems hold for
      every host.
    - [Sultan_str] is the line [__str__] returns when it returns;
      [render_raises] tells when it raises instead, and [str_self], the
      step [str(self)] of a method body, puts the two together. *)

From Stdlib Require Import String Ascii List Bool Arith Lia ZArith.
From Stdlib Require Import DecimalString.
Import ListNotations.
Open Scope list_scope.
Open Scope string_scope.

Set Implicit Arguments.

(* ===================================================================== *)
(** ** Python primitives *)
(* ===================================================================== *)

Module Py.

(** [str.isspace] on one character, for the code points below 256:
    U+0009..U+000D, U+001C..U+001F, U+0020, U+0085 and U+00A0. *)
Definition isspace (c : ascii) : bool :=
  let n := nat_of_ascii c in
  ((9 <=? n)%nat && (n <=? 13)%nat) || ((28 <=? n)%nat && (n <=? 32)%nat)
  || (n =? 133)%nat || (n =? 160)%nat.

(** [str.lstrip()] *)
Fixpoint lstrip (s : string) : string :=
  match s with
  | EmptyString => EmptyString
  | String c r => if isspace c then lstrip r else s
  end.

(** [str.rstrip()] *)
Fixpoint rstrip (s : string) : string :=
  match s with
  | EmptyString => EmptyString
  | String c r =>
      match rstrip r with
      | EmptyString => if isspace c then EmptyString else String c EmptyString
      | r' => String c r'
      end
  end.

(** [str.strip()] *)
Definition strip (s : string) : string := rstrip (lstrip s).

(** [sep.join(parts)] *)
Fixpoint join (sep : string) (parts : list string) : string :=
  match parts with
  | [] => ""
  | [p] => p
  | p :: rest => p ++ sep ++ join sep rest
  end.

(** [s.startswith(p)] *)
Definition startswith (p s : string) : bool := String.prefix p s.

(** [s.endswith("/")] *)
Fixpoint endswith_slash (s : string) : bool :=
  match s with
  | EmptyString => false
  | String c EmptyString => Ascii.eqb c "/"
  | String _ r => endswith_slash r
  end.

(** [name.replace('__', '-')]: the occurrences of two underscores,
    found from the left and without overlap, become a dash. *)
Fixpoint replace_dunder (s : string) : string :=
  match s with
  | String "_" r =>
      match r with
      | String "_" r' => String "-" (replace_dunder r')
      | _ => String "_" (replace_dunder r)
      end
  | String c r => String c (replace_dunder r)
  | EmptyString => EmptyString
  end.

(** The values a caller passes as positional arguments, as values of
    keyword arguments and as configuration values.  An integer is one
    that [str] converts: CPython refuses, with [ValueError], to convert
    an integer of more than 4300 digits (the default limit), and such
    integers are not values of the model; [convertible] names the
    condition. *)
Inductive value : Type :=
| VNone : value
| VBool : bool -> value
| VInt : Z -> value
| VStr : string -> value.

(** [str(v)], which is also what an f-string and [%s] insert. *)
Definition str (v : value) : string :=
  match v with
  | VNone => "None"
  | VBool true => "True"
  | VBool false => "False"
  | VInt z => NilZero.string_of_int (Z.to_int z)
  | VStr s => s
  end.

(** The values [str] converts: every value but an integer of more than
    4300 decimal digits. *)
Definition convertible (v : value) : bool :=
  match v with
  | VInt z => (Z.abs z <? 10 ^ 4300)%Z
  | _ => true
  end.

(** [str(x)] of an optional string: [None] prints as its name. *)
Definition str_opt (o : option string) : string :=
  match o with
  | None => "None"
  | Some s => s
  end.

(** Truth value of an optional string: [None] and [''] are false. *)
Definition truthy (o : option string) : bool :=
  match o with
  | None => false
  | Some s => negb (s =? "")
  end.

(** A [dict] with string keys, in insertion order. *)
Definition dict (V : Type) : Type := list (string * V).

(** [k in d] *)
Definition contains {V} (k : string) (d : dict V) : bool :=
  existsb (fun kv => fst kv =? k) d.

(** [d.get(k)] *)
Fixpoint get {V} (k : string) (d : dict V) : option V :=
  match d with
  | [] => None
  | (k', v) :: r => if k' =? k then Some v else get k r
  end.

(** The dictionary left by [d.pop(k)]. *)
Definition pop {V} (k : string) (d : dict V) : dict V :=
  filter (fun kv => negb (fst kv =? k)) d.

(** [posixpath.join(a, b)] *)
Definition path_join (a b : string) : string :=
  if startswith "/" b then b
  else if (a =? "") || endswith_slash a then a ++ b
  else a ++ "/" ++ b.

End Py.

(* ===================================================================== *)
(** ** Tokens: [BaseCommand] and its subclasses *)
(* ===================================================================== *)

(** The class of a token object, which [isinstance] and the dispatch of
    [__str__] look at. *)
Inductive Class : Type := Command | Pipe | And | Or | Redirect.

(** The fields [BaseCommand.__init__] sets (the back reference to the
    builder and the unused per-token context apart). *)
Record BaseCommand : Type := mkBaseCommand {
  klass : Class;
  command : string;
  args : list string;
  kwargs : Py.dict Py.value
}.

(** [BaseCommand.__init__(sultan, name)] for a class [c]. *)
Definition BaseCommand_init (c : Class) (name : string) : BaseCommand :=
  {| klass := c; command := name; args := []; kwargs := [] |}.

(** [isinstance(cmd, SPECIAL_CASES)] with
    [SPECIAL_CASES = (Pipe, And, Redirect, Or)]. *)
Definition is_special (cmd : BaseCommand) : bool :=
  match klass cmd with
  | Pipe | And | Redirect | Or => true
  | Command => false
  end.

(** One element of [kwargs_list] in [Command.__str__]. *)
Definition kwarg_flag (kv : string * Py.value) : string :=
  let (k, v) := kv in
  let key := if (String.length k =? 1)%nat then "-" ++ k else "--" ++ k in
  key ++ "=" ++ Py.str v.

(** [Command.__str__] *)
Definition Command_str (self : BaseCommand) : string :=
  let args_str := Py.strip (Py.join " " (args self)) in
  let kwargs_list := map kwarg_flag (kwargs self) in
  let kwargs_str := Py.strip (Py.join " " kwargs_list) in
  let output := command self in
  let output := if negb (kwargs_str =? "") then output ++ " " ++ kwargs_str
                else output in
  let output := if negb (args_str =? "") then output ++ " " ++ args_str
                else output in
  output.

(** [str(cmd)]: [Pipe], [And], [Or] and [Redirect] return [self.command]. *)
Definition token_str (cmd : BaseCommand) : string :=
  match klass cmd with
  | Command => Command_str cmd
  | Pipe | And | Or | Redirect => command cmd
  end.

(* ===================================================================== *)
(** ** Contexts, the builder object and the host *)
(* ===================================================================== *)

(** A process environment: variable names and their values. *)
Definition environ : Type := Py.dict string.

(** The entry ['env'] of a context dictionary.  [run] reads it with
    [.get('env', {})], the one place where a missing key and a key bound
    to [None] differ, so the three cases are kept apart. *)
Inductive env_entry : Type :=
| EnvMissing : env_entry
| EnvNone : env_entry
| EnvMap : environ -> env_entry.

(** The context dictionary, with the keys the code reads.  A key read
    with [.get(k)] is [None] when it is missing or bound to [None];
    [sudo] and [logging] are read for their truth value only. *)
Record Context : Type := mkContext {
  cwd : option string;
  sudo : bool;
  hostname : option string;
  ssh_config : option string;
  env : env_entry;
  logging : bool;
  src : option string;
  user : option string
}.

(** The empty dictionary [{}]. *)
Definition empty_context : Context :=
  {| cwd := None; sudo := false; hostname := None; ssh_config := None;
     env := EnvMissing; logging := false; src := None; user := None |}.

(** The attributes of a [Sultan] instance. *)
Record Sultan : Type := mkSultan {
  commands : list BaseCommand;
  _context : list Context;
  logging_activated : bool
}.

(** Modelled from the spec: the class [Result] of [sultan/result.py],
    which is not among the sources.  It holds the captured stdout and
    stderr, each absent if empty, and an optional traceback. *)
Record Result : Type := mkResult {
  stdout : option string;
  stderr : option string;
  traceback : option (list string)
}.

Definition absent_if_empty (o : option string) : option string :=
  if Py.truthy o then o else None.

Definition Result_init (out err : option string)
    (tb : option (list string)) : Result :=
  {| stdout := absent_if_empty out; stderr := absent_if_empty err;
     traceback := tb |}.

(** What [Popen(...).communicate()] does: it hands back the two captured
    streams, or the invocation raises an [Exception], which is kept as
    the lines [traceback.format_exc()] prints for it.  (An interrupt or
    an exit, which [except Exception] does not catch, is not an answer
    of the model.) *)
Inductive popen_outcome : Type :=
| Communicated : string -> string -> popen_outcome
| PopenRaised : list string -> popen_outcome.

(** What the surrounding system decides. *)
Record Host : Type := mkHost {
  getuser : string;                       (* what getpass.getuser() returns *)
  getuser_raises : bool;                  (* ... unless it raises: no login
                                             name variable, no passwd entry *)
  path_exists : string -> bool;           (* os.path.exists on a path *)
  fd_exists : Z -> bool;                  (* os.path.exists on a descriptor *)
  os_environ : environ;                   (* os.environ *)
  shell : string -> option environ -> popen_outcome
}.

(** The environment the child process of [Popen(..., env=e)] sees:
    [env=None] inherits the parent's, a mapping replaces it. *)
Definition child_environment (h : Host) (e : option environ) : environ :=
  match e with
  | None => os_environ h
  | Some m => m
  end.

(** Exceptions. *)
Inductive exn : Type :=
| ValueError : string -> exn
| IOError : string -> exn
| TypeError : exn
| KeyError : string -> exn
| OverflowError : exn
| InvalidContextError : string -> exn
| ShellException : list string -> exn.

(** The configuration errors of the specification: [ValueError] for
    parameters, [IOError] for paths. *)
Definition is_configuration_error (e : exn) : bool :=
  match e with
  | ValueError _ | IOError _ => true
  | _ => false
  end.

(** Calls made on the [Echo] logger and on the printing methods of
    [Result], in order. *)
Inductive echo_call : Type :=
| EchoCmd : string -> echo_call
| EchoLog : string -> echo_call
| EchoCritical : string -> echo_call
| PrintTraceback : echo_call
| PrintStdout : echo_call
| PrintStderr : echo_call.

(** The machine: the builder and what it has done to the outside. *)
Record Machine : Type := mkMachine {
  self : Sultan;
  echoed : list echo_call;
  spawned : list (string * option environ)
}.

(* ===================================================================== *)
(** ** The monad of stateful, raising computations *)
(* ===================================================================== *)

Inductive outcome (A : Type) : Type :=
| Return : A -> outcome A
| Raise : exn -> outcome A.
Arguments Return {A} _.
Arguments Raise {A} _.

Definition M (A : Type) : Type := Machine -> outcome A * Machine.

Definition ret {A} (a : A) : M A := fun m => (Return a, m).

Definition raise {A} (e : exn) : M A := fun m => (Raise e, m).

Definition bind {A B} (c : M A) (k : A -> M B) : M B :=
  fun m =>
    match c m with
    | (Return a, m') => k a m'
    | (Raise e, m') => (Raise e, m')
    end.

(** [try: c  except Exception: handler] *)
Definition try_except {A} (c : M A) (handler : exn -> M A) : M A :=
  fun m =>
    match c m with
    | (Return a, m') => (Return a, m')
    | (Raise e, m') => handler e m'
    end.

(** [try: c  finally: f]: [f] runs on every way out of [c]; the outcome
    of [c] stands unless [f] itself raises. *)
Definition try_finally {A B} (c : M A) (f : M B) : M A :=
  fun m =>
    let (r, m') := c m in
    match f m' with
    | (Return _, m'') => (r, m'')
    | (Raise e, m'') => (Raise e, m'')
    end.

(** Lifting a pure outcome. *)
Definition lift {A} (r : outcome A) : M A := fun m => (r, m).

Declare Scope sultan_scope.
Delimit Scope sultan_scope with sultan.
Notation "x <- c ;; k" := (bind c (fun x => k))
  (at level 61, c at next level, right associativity) : sultan_scope.
Notation "c ;;; k" := (bind c (fun _ => k))
  (at level 61, right associativity) : sultan_scope.
Open Scope sultan_scope.

Definition get_self : M Sultan := fun m => (Return (self m), m).

Definition put_self (s : Sultan) : M unit :=
  fun m => (Return tt, {| self := s; echoed := echoed m; spawned := spawned m |}).

Definition echo (c : echo_call) : M unit :=
  fun m => (Return tt,
            {| self := self m; echoed := echoed m ++ [c]; spawned := spawned m |}).

(* ===================================================================== *)
(** ** Rendering: [Sultan.__str__] *)
(* ===================================================================== *)

(** [Sultan.current_context] *)
Definition current_context (s : Sultan) : Context :=
  if (0 <? length (_context s))%nat then last (_context s) empty_context
  else empty_context.

(** The loop of [__str__] over [enumerate(self.commands)]: [i] is the
    index of the head of [rest], [output] the accumulator.  The lookup
    [self.commands[i - 1]] happens for [i >= 1] only and is in range. *)
Fixpoint render_loop (commands : list BaseCommand) (i : nat)
    (rest : list BaseCommand) (output : string) : string :=
  match rest with
  | [] => output
  | cmd :: rest' =>
      let separator :=
        if (i =? 0)%nat then ""
        else if is_special cmd then " "
        else if is_special (nth (i - 1) commands cmd) then " " else "; " in
      let cmd_str := token_str cmd in
      render_loop commands (S i) rest' (output ++ separator ++ cmd_str)
  end.

(** [output = f"{output.strip()};"] after the loop. *)
Definition render_body (commands : list BaseCommand) : string :=
  Py.strip (render_loop commands 0 commands "") ++ ";".

(** [if cwd := context.get('cwd'): output = f"cd {cwd} && " + output] *)
Definition with_cwd (context : Context) (output : string) : string :=
  if Py.truthy (cwd context)
  then ("cd " ++ Py.str_opt (cwd context) ++ " && ") ++ output
  else output.

(** [if src := context.get('src'): output = f"source {src} && " + output] *)
Definition with_src (context : Context) (output : string) : string :=
  if Py.truthy (src context)
  then ("source " ++ Py.str_opt (src context) ++ " && ") ++ output
  else output.

(** [user != getpass.getuser()] for the context's user, which is [None]
    or a string. *)
Definition user_differs (h : Host) (context : Context) : bool :=
  match user context with
  | None => true
  | Some u => negb (u =? getuser h)
  end.

(** The block "update with 'sudo' context". *)
Definition with_sudo (h : Host) (context : Context) (output : string)
    : string :=
  if sudo context then
    if user_differs h context then
      "sudo su - " ++ Py.str_opt (user context) ++ " -c '" ++ output ++ "'"
    else if getuser h =? "root" then
      "su - " ++ Py.str_opt (user context) ++ " -c '" ++ output ++ "'"
    else
      "sudo " ++ output
  else output.

(** The entry ['ssh_config'] of [params]. *)
Definition ssh_options (context : Context) : string :=
  if Py.truthy (ssh_config context)
  then " " ++ Py.str_opt (ssh_config context) ++ " "
  else " ".

(** The block "if we have to ssh". *)
Definition with_ssh (context : Context) (output : string) : string :=
  if Py.truthy (hostname context) then
    "ssh" ++ ssh_options context ++ Py.str_opt (user context) ++ "@"
      ++ Py.str_opt (hostname context) ++ " '" ++ output ++ "'"
  else output.

(** [Sultan.__str__], the successive assignments to [output]. *)
Definition Sultan_str (h : Host) (s : Sultan) : string :=
  let context := current_context s in
  let output := render_body (commands s) in
  let output := with_cwd context output in
  let output := with_src context output in
  let output := with_sudo h context output in
  let output := with_ssh context output in
  output.

(** What [getpass.getuser()] raises on a host without a login name. *)
Definition getuser_error : exn := KeyError "getpwuid(): uid not found".

(** The exception [__str__] raises instead of returning, if any: the
    sudo block asks [getpass.getuser()], on line 280, which raises on a
    host without a login name. *)
Definition render_raises (h : Host) (s : Sultan) : option exn :=
  if sudo (current_context s) && getuser_raises h then Some getuser_error
  else None.

(** [str(self)] as a step of a method body. *)
Definition str_self (h : Host) : M string :=
  s <- get_self ;;
  match render_raises h s with
  | Some e => raise e
  | None => ret (Sultan_str h s)
  end.

(* ===================================================================== *)
(** ** The builder's methods *)
(* ===================================================================== *)

(** [Sultan.__init__(context)] *)
Definition Sultan_init (context : option Context) : Sultan :=
  {| commands := [];
     _context := match context with Some c => [c] | None => [] end;
     logging_activated :=
       match context with Some c => logging c | None => false end |}.

(** [Sultan._add(command)] *)
Definition Sultan_add (cmd : BaseCommand) : M unit :=
  s <- get_self ;;
  put_self {| commands := commands s ++ [cmd]; _context := _context s;
              logging_activated := logging_activated s |}.

(** [Sultan.clear()]: [del self.commands[:]] *)
Definition Sultan_clear : M unit :=
  s <- get_self ;;
  put_self {| commands := []; _context := _context s;
              logging_activated := logging_activated s |}.

(** [Sultan.pipe()], [Sultan.and_()], [Sultan.or_()] *)
Definition Sultan_pipe : M unit := Sultan_add (BaseCommand_init Pipe "|").
Definition Sultan_and_ : M unit := Sultan_add (BaseCommand_init And "&&").
Definition Sultan_or_ : M unit := Sultan_add (BaseCommand_init Or "||").

(** [Sultan.spit()] *)
Definition Sultan_spit (h : Host) : M unit :=
  line <- str_self h ;; echo (EchoLog line).

(** [Sultan.__getattr__(name)]: the token object to be called. *)
Definition Sultan_getattr (name : string) : BaseCommand :=
  if name =? "redirect" then BaseCommand_init Redirect name
  else BaseCommand_init Command (Py.replace_dunder name).

(** [Sultan.__enter__] *)
Definition Sultan_enter : M unit :=
  s <- get_self ;;
  if (length (_context s) =? 0)%nat then
    raise (InvalidContextError
      "You're using the 'with' block to load Sultan, but didn't provide a context with 'Sultan.context(...)'")
  else ret tt.

(** [Sultan.__exit__] *)
Definition Sultan_exit : M unit :=
  s <- get_self ;;
  if (0 <? length (_context s))%nat then
    put_self {| commands := commands s; _context := removelast (_context s);
                logging_activated := logging_activated s |}
  else ret tt.

(** [os.path.exists(v)]: a string is a path, an integer (a boolean is
    one) a file descriptor, which has to fit a C [int], [None] a type
    error. *)
Definition os_path_exists (h : Host) (v : Py.value) : outcome bool :=
  match v with
  | Py.VStr p => Return (path_exists h p)
  | Py.VInt n =>
      if ((n <? - 2 ^ 31) || (2 ^ 31 - 1 <? n))%Z then Raise OverflowError
      else Return (fd_exists h n)
  | Py.VBool b => Return (fd_exists h (if b then 1 else 0)%Z)
  | Py.VNone => Raise TypeError
  end.

(** [os.path.join(a, b)] with [b] a string: [a] has to be one too. *)
Definition os_path_join (a : Py.value) (b : string) : outcome string :=
  match a with
  | Py.VStr p => Return (Py.path_join p b)
  | _ => Raise TypeError
  end.

(** The block "check for 'where' in kwargs" of [Command.__call__]: the
    command name it leaves in [self.command]. *)
Definition locate (h : Host) (self_command : string)
    (kwargs : Py.dict Py.value) : outcome string :=
  match Py.get "where" kwargs with
  | Some where_ =>
      match os_path_exists h where_ with
      | Raise e => Raise e
      | Return false =>
          Raise (IOError ("The value for 'where' (" ++ Py.str where_
                          ++ "), for '" ++ self_command ++ "' does not exist."))
      | Return true =>
          match os_path_join where_ self_command with
          | Raise e => Raise e
          | Return cmd =>
              if negb (path_exists h cmd) then
                Raise (IOError ("Command '" ++ cmd ++ "' does not exist in '"
                                ++ Py.str where_ ++ "'."))
              else os_path_join where_ cmd
          end
      end
  | None => Return self_command
  end.

(** [Command.__call__], with its positional and keyword arguments, on a
    token [self_] just made by [__getattr__], as in [s.name(...)].  The
    method changes the token object and appends that same object; a
    token object kept and called a second time, whose entry in the
    buffer would change with it, is outside this definition. *)
Definition Command_call (h : Host) (self_ : BaseCommand)
    (args : list Py.value) (kwargs : Py.dict Py.value) : M unit :=
  located <- lift (locate h (command self_) kwargs) ;;
  let kwargs := Py.pop "where" kwargs in
  let sudo_given := Py.contains "sudo" kwargs in
  let kwargs := if sudo_given then Py.pop "sudo" kwargs else kwargs in
  let command := if sudo_given then "sudo " ++ located else located in
  Sultan_add {| klass := klass self_; command := command;
                args := map Py.str args; kwargs := kwargs |}.

(** [Redirect.__call__(to_file, append, stdout, stderr)] *)
Definition Redirect_call (self_ : BaseCommand) (to_file : Py.value)
    (append stdout stderr : bool) : M unit :=
  descriptor <-
    (if stdout && stderr then ret "&"
     else if stdout then ret "1"
     else if stderr then ret "2"
     else raise (ValueError
       "You chose redirect to stdout and stderr to be false. This is not valid.")) ;;
  let descriptor := (descriptor ++ ">") ++ (if append then ">" else "") in
  Sultan_add {| klass := klass self_;
                command := descriptor ++ " " ++ Py.str to_file;
                args := args self_; kwargs := kwargs self_ |}.

(* ===================================================================== *)
(** ** [Config] and [SSHConfig] *)
(* ===================================================================== *)

(** An entry of [params_map]. *)
Record param : Type := mkParam {
  shorthand : string;
  required : bool
}.

(** [SSHConfig.params_map] *)
Definition SSHConfig_params_map : Py.dict param :=
  [ ("identity_file", {| shorthand := "-i"; required := false |});
    ("port", {| shorthand := "-p"; required := false |}) ].

(** The first loop of [Config.validate_config]. *)
Fixpoint check_required (params_map : Py.dict param)
    (config : Py.dict Py.value) : outcome unit :=
  match params_map with
  | [] => Return tt
  | (key, key_config) :: rest =>
      if required key_config && negb (Py.contains key config) then
        Raise (ValueError
          "Invalid Configuration! Required parameter '%s' was not provided to Sultan.")
      else check_required rest config
  end.

(** The second loop of [Config.validate_config]. *)
Fixpoint check_known (params_map : Py.dict param)
    (keys : list string) : outcome unit :=
  match keys with
  | [] => Return tt
  | key :: rest =>
      if negb (Py.contains key params_map) then
        Raise (ValueError ("Invalid Configuration! The parameter '" ++ key
                           ++ "' provided is not used by Sultan!"))
      else check_known params_map rest
  end.

(** [Config.validate_config] *)
Definition validate_config (params_map : Py.dict param)
    (config : Py.dict Py.value) : outcome unit :=
  match check_required params_map config with
  | Raise e => Raise e
  | Return _ => check_known params_map (map fst config)
  end.

(** [Config.__init__]: the instance is its [config] attribute. *)
Definition Config_init (params_map : Py.dict param)
    (config : Py.dict Py.value) : outcome (Py.dict Py.value) :=
  match validate_config params_map config with
  | Raise e => Raise e
  | Return _ => Return config
  end.

(** The loop of [Config.__str__], building [output]. *)
Fixpoint config_words (params_map : Py.dict param)
    (items : Py.dict Py.value) (output : list string)
    : outcome (list string) :=
  match items with
  | [] => Return output
  | (key, value) :: rest =>
      match Py.get key params_map with
      | None => Raise (KeyError key)
      | Some p =>
          config_words params_map rest
            (output ++ [shorthand p; Py.str value])%list
      end
  end.

(** [Config.__str__] *)
Definition Config_str (params_map : Py.dict param)
    (config : Py.dict Py.value) : outcome string :=
  match config_words params_map config [] with
  | Raise e => Raise e
  | Return output => Return (Py.join " " output)
  end.

(* ===================================================================== *)
(** ** Construction: [Sultan.load] *)
(* ===================================================================== *)

(** The argument [ssh_config] of [load]: nothing (or any false value),
    an instance of [SSHConfig], or a true value of another class. *)
Inductive ssh_config_arg : Type :=
| SshNothing : ssh_config_arg
| SshInstance : Py.dict Py.value -> ssh_config_arg
| SshForeign : string -> ssh_config_arg.

(** [Sultan.load(cwd, sudo, user, hostname, env, logging, ssh_config, src)].
    Further keyword arguments only add keys that nothing reads. *)
Definition Sultan_load (h : Host) (cwd : option string) (sudo : bool)
    (user hostname : option string) (env : option environ) (logging : bool)
    (ssh_config : ssh_config_arg) (src : option string) : outcome Sultan :=
  match ssh_config with
  | SshForeign shown =>
      Raise (ValueError ("The config passed (" ++ shown
                         ++ ") must be an instance of SSHConfig."))
  | _ =>
      if Py.truthy src && negb (path_exists h (Py.str_opt src)) then
        Raise (IOError ("The Source File provided (" ++ Py.str_opt src
                        ++ ") does not exist"))
      else
        match (match ssh_config with
               | SshInstance config => Config_str SSHConfig_params_map config
               | _ => Return ""
               end) with
        | Raise e => Raise e
        | Return ssh_str =>
            if negb (Py.truthy user) && getuser_raises h then
              Raise getuser_error
            else
            let context :=
              {| cwd := cwd;
                 sudo := sudo;
                 hostname := hostname;
                 ssh_config := Some ssh_str;
                 env := match env with
                        | Some ((_ :: _) as m) => EnvMap m
                        | _ => EnvNone
                        end;
                 logging := logging;
                 src := src;
                 user := if Py.truthy user then user else Some (getuser h) |} in
            Return (Sultan_init (Some context))
        end
  end.

(* ===================================================================== *)
(** ** Execution: [Sultan.run] *)
(* ===================================================================== *)

(** [subprocess.Popen(commands, shell=True, env=env, ...).communicate()]:
    the invocation is recorded, the host's shell answers. *)
Definition Popen_communicate (h : Host) (commands : string)
    (env : option environ) : M (string * string) :=
  fun m =>
    let m' := {| self := self m; echoed := echoed m;
                 spawned := spawned m ++ [(commands, env)] |} in
    match shell h commands env with
    | Communicated out err => (Return (out, err), m')
    | PopenRaised tb => (Raise (ShellException tb), m')
    end.

(** [traceback.format_exc().split("\n")] in the handler. *)
Definition format_exc (e : exn) : list string :=
  match e with
  | ShellException tb => tb
  | _ => []
  end.

(** The value of [env] in [run]:
    [self._context[0].get('env', {}) if len(self._context) > 0 else os.environ] *)
Definition run_env (h : Host) (s : Sultan) : option environ :=
  if (0 <? length (_context s))%nat then
    match env (nth 0 (_context s) empty_context) with
    | EnvMissing => Some []
    | EnvNone => None
    | EnvMap m => Some m
    end
  else Some (os_environ h).

(** [Sultan.run(halt_on_nonzero, quiet, q)].  The line is rendered on
    line 182, before the [try] of line 189: when rendering raises,
    neither the handler nor the [finally] block runs.  In the handler
    [stdout] and [stderr] still hold [None]: the only raising step of
    the [try] block is the one that would have assigned them. *)
Definition Sultan_run (h : Host) (halt_on_nonzero quiet q : bool)
    : M Result :=
  commands <- str_self h ;;
  (if negb quiet && negb q then echo (EchoCmd commands) else ret tt) ;;;
  s <- get_self ;;
  let env := run_env h s in
  try_finally
    (try_except
       (streams <- Popen_communicate h commands env ;;
        let result :=
          Result_init (Some (fst streams)) (Some (snd streams)) None in
        if Py.truthy (stdout result) then ret result
        else
          (if Py.truthy (stderr result) then echo PrintStderr else ret tt) ;;;
          ret result)
       (fun e =>
          let tb := format_exc e in
          echo (EchoCritical ("Unable to run '" ++ commands ++ "'")) ;;;
          let result := Result_init None None (Some tb) in
          echo PrintTraceback ;;;
          (if Py.truthy (stdout result) then echo PrintStdout else ret tt) ;;;
          (if Py.truthy (stderr result) then echo PrintStderr else ret tt) ;;;
          if halt_on_nonzero then raise e else ret result))
    Sultan_clear.

(** [Sultan.__call__] *)
Definition Sultan_call (h : Host) : M unit :=
  s <- get_self ;;
  match commands s with
  | [] => ret tt
  | _ :: _ => Sultan_run h true false false ;;; Sultan_clear
  end.

(* ===================================================================== *)
(** ** The separator rule, as the specification words it *)
(* ===================================================================== *)

(** The separator written before [cmd], given the token before it, if
    any: nothing before the first token, a space before an operator
    token and before a plain command that follows one, a semicolon and a
    space between two plain commands. *)
Definition separator_rule (prev : option BaseCommand) (cmd : BaseCommand)
    : string :=
  match prev with
  | None => ""
  | Some p =>
      if is_special cmd then " "
      else if is_special p then " "
      else "; "
  end.

(** The fragments of a buffer, each behind its separator. *)
Fixpoint fragments (prev : option BaseCommand) (cmds : list BaseCommand)
    : string :=
  match cmds with
  | [] => ""
  | cmd :: rest =>
      separator_rule prev cmd ++ token_str cmd ++ fragments (Some cmd) rest
  end.

(** The four context layers around a rendered body, innermost first. *)
Definition context_wrap (h : Host) (context : Context) (body : string)
    : string :=
  with_ssh context (with_sudo h context (with_src context
    (with_cwd context body))).

(** A context that asks for no layer at all. *)
Definition plain_context (context : Context) : bool :=
  negb (Py.truthy (cwd context)) && negb (Py.truthy (src context))
  && negb (sudo context) && negb (Py.truthy (hostname context)).

(** The last element of a list, if any. *)
Definition last_opt {A} (l : list A) : option A :=
  match rev l with
  | [] => None
  | x :: _ => Some x
  end.

(** The machine in which the buffer of [m] is [cmds]. *)
Definition with_commands (m : Machine) (cmds : list BaseCommand) : Machine :=
  {| self := {| commands := cmds; _context := _context (self m);
                logging_activated := logging_activated (self m) |};
     echoed := echoed m; spawned := spawned m |}.

(* ===================================================================== *)
(** ** Sample hosts and builders *)
(* ===================================================================== *)

(** A host where [alice] is logged in, [/tmp] and [/usr/bin] exist with
    [/usr/bin/ls] in it, and the shell answers with empty streams. *)
Definition alice_host : Host :=
  {| getuser := "alice";
     getuser_raises := false;
     path_exists := fun p =>
       (p =? "/tmp") || (p =? "/usr/bin") || (p =? "/usr/bin/ls");
     fd_exists := fun _ => false;
     os_environ := [("PATH", "/usr/bin"); ("HOME", "/home/alice")];
     shell := fun _ _ => Communicated "" "" |}.

(** The same host with a shell that cannot be started. *)
Definition broken_host : Host :=
  {| getuser := "alice";
     getuser_raises := false;
     path_exists := path_exists alice_host;
     fd_exists := fun _ => false;
     os_environ := os_environ alice_host;
     shell := fun _ _ => PopenRaised ["OSError: cannot fork"] |}.

(** A host without a login name: a process whose uid has no passwd
    entry and whose environment names no user. *)
Definition nologin_host : Host :=
  {| getuser := "";
     getuser_raises := true;
     path_exists := fun _ => true;
     fd_exists := fun _ => false;
     os_environ := [("PATH", "/usr/bin")];
     shell := fun _ _ => Communicated "" "" |}.

(** The token of [s.ls()]. *)
Definition ls_token : BaseCommand := BaseCommand_init Command "ls".

(** The token of [s.touch("x")]. *)
Definition touch_token : BaseCommand :=
  {| klass := Command; command := "touch"; args := ["x"]; kwargs := [] |}.

(** A machine that has done nothing yet around the builder [s]. *)
Definition fresh (s : Sultan) : Machine :=
  {| self := s; echoed := []; spawned := [] |}.

(** A builder with buffer [cmds] and the one context [c]. *)
Definition builder (c : Context) (cmds : list BaseCommand) : Sultan :=
  {| commands := cmds; _context := [c]; logging_activated := logging c |}.

(** [cwd='/tmp'] and nothing else; the key ['env'] is missing. *)
Definition tmp_context : Context :=
  {| cwd := Some "/tmp"; sudo := false; hostname := None; ssh_config := None;
     env := EnvMissing; logging := false; src := None; user := None |}.

(** Source file and working directory, no sudo, no host. *)
Definition sourced_context : Context :=
  {| cwd := Some "/tmp"; sudo := false; hostname := None; ssh_config := Some "";
     env := EnvNone; logging := true; src := Some "/etc/profile";
     user := Some "alice" |}.

(** The same with sudo requested for the invoking user. *)
Definition sourced_sudo_context : Context :=
  {| cwd := Some "/tmp"; sudo := true; hostname := None; ssh_config := Some "";
     env := EnvNone; logging := true; src := Some "/etc/profile";
     user := Some "alice" |}.

(** What [load(sudo=True, user='deploy')] stores. *)
Definition deploy_context : Context :=
  {| cwd := None; sudo := true; hostname := None; ssh_config := Some "";
     env := EnvNone; logging := true; src := None; user := Some "deploy" |}.

(** What [load(env={'LANG': 'C'})] stores for [alice]: no layer. *)
Definition lang_context : Context :=
  {| cwd := None; sudo := false; hostname := None; ssh_config := Some "";
     env := EnvMap [("LANG", "C")]; logging := true; src := None;
     user := Some "alice" |}.

(** [cwd='/tmp', sudo=True, user='root']. *)
Definition root_context : Context :=
  {| cwd := Some "/tmp"; sudo := true; hostname := None; ssh_config := Some "";
     env := EnvNone; logging := true; src := None; user := Some "root" |}.

(** [hostname='h.com', user='bob'], no ssh options. *)
Definition remote_context : Context :=
  {| cwd := None; sudo := false; hostname := Some "h.com";
     ssh_config := Some ""; env := EnvNone; logging := true; src := None;
     user := Some "bob" |}.

(* ===================================================================== *)
(** ** Notions used in the statements below *)
(* ===================================================================== *)

(** Two underscores in a row somewhere in [s]. *)
Fixpoint has_dunder (s : string) : bool :=
  match s with
  | EmptyString => false
  | String c r =>
      match r with
      | EmptyString => false
      | String c' _ =>
          (Ascii.eqb c "_" && Ascii.eqb c' "_") || has_dunder r
      end
  end.

(** Every character of [s] is white space. *)
Fixpoint all_space (s : string) : bool :=
  match s with
  | EmptyString => true
  | String c r => Py.isspace c && all_space r
  end.

(** What the context writes before the rendered body, outermost first:
    the ssh opening, the sudo opening, the source and the cd prefix. *)
Definition context_prefix (h : Host) (context : Context) : string :=
  (if Py.truthy (hostname context) then
     "ssh" ++ ssh_options context ++ Py.str_opt (user context) ++ "@"
       ++ Py.str_opt (hostname context) ++ " '"
   else "")
  ++ (if sudo context then
        if user_differs h context then
          "sudo su - " ++ Py.str_opt (user context) ++ " -c '"
        else if getuser h =? "root" then
          "su - " ++ Py.str_opt (user context) ++ " -c '"
        else "sudo "
      else "")
  ++ (if Py.truthy (src context)
      then "source " ++ Py.str_opt (src context) ++ " && " else "")
  ++ (if Py.truthy (cwd context)
      then "cd " ++ Py.str_opt (cwd context) ++ " && " else "").

(** What the context writes behind the rendered body: the quotes that
    close the sudo and the ssh wrapping. *)
Definition context_suffix (h : Host) (context : Context) : string :=
  (if sudo context then
     if user_differs h context || (getuser h =? "root") then "'" else ""
   else "")
  ++ (if Py.truthy (hostname context) then "'" else "").

(** The tokens of a buffer are all plain commands. *)
Definition all_plain (cmds : list BaseCommand) : bool :=
  forallb (fun cmd => negb (is_special cmd)) cmds.

(** The keys of a configuration are all entries of [params_map]. *)
Definition all_known (params_map : Py.dict param)
    (config : Py.dict Py.value) : bool :=
  forallb (fun kv => Py.contains (fst kv) params_map) config.

(** The required entries of [params_map] are all keys of [config]. *)
Definition all_required (params_map : Py.dict param)
    (config : Py.dict Py.value) : bool :=
  forallb (fun kp => negb (required (snd kp)) || Py.contains (fst kp) config)
    params_map.

(** A call on the builder's logger or on a result is a command echo. *)
Definition is_echo_cmd (c : echo_call) : bool :=
  match c with
  | EchoCmd _ => true
  | _ => false
  end.

(** A call on the builder's logger or on a result prints stderr. *)
Definition is_print_stderr (c : echo_call) : bool :=
  match c with
  | PrintStderr => true
  | _ => false
  end.

(** The words [SSHConfig.__str__] joins: for each entry of the
    configuration, in order, its flag and its value. *)
Definition ssh_words (config : Py.dict Py.value) : list string :=
  flat_map (fun kv =>
              [(if fst kv =? "identity_file" then "-i" else "-p");
               Py.str (snd kv)]) config.

(** A host whose working directory holds [bin] with [ls] in it. *)
Definition relative_host : Host :=
  {| getuser := "alice";
     getuser_raises := false;
     path_exists := fun p => (p =? "bin") || (p =? "bin/ls");
     fd_exists := fun _ => false;
     os_environ := [("PATH", "/usr/bin")];
     shell := fun _ _ => Communicated "" "" |}.

(** A host whose shell writes to stderr only. *)
Definition failing_command_host : Host :=
  {| getuser := "alice";
     getuser_raises := false;
     path_exists := fun _ => true;
     fd_exists := fun _ => false;
     os_environ := [("PATH", "/usr/bin")];
     shell := fun _ _ => Communicated "" "ls: no such file" |}.

(** The builder [s] with [cmds] in its buffer. *)
Definition with_buffer (s : Sultan) (cmds : list BaseCommand) : Sultan :=
  {| commands := cmds; _context := _context s;
     logging_activated := logging_activated s |}.

(** The calls one [run] makes on the logger and on its result, given
    the flags, the rendered line and the answer of the shell. *)
Definition run_echo_calls (quiet q : bool) (line : string)
    (answer : popen_outcome) : list echo_call :=
  ((if negb quiet && negb q then [EchoCmd line] else [])
   ++ match answer with
      | Communicated out err =>
          if negb (out =? "") then []
          else if negb (err =? "") then [PrintStderr] else []
      | PopenRaised _ =>
          [EchoCritical ("Unable to run '" ++ line ++ "'"); PrintTraceback]
      end)%list.

(** What the loop of [__str__] writes for the buffer of [m], before
    stripping. *)
Definition loop_text (m : Machine) : string :=
  render_loop (commands (self m)) 0 (commands (self m)) "".

(* ===================================================================== *)
(** ** Strings and dictionaries *)
(* ===================================================================== *)

Section StringFacts.

Lemma append_assoc (a b c : string) : (a ++ b) ++ c = a ++ (b ++ c).
Proof.
  induction a as [|x a IH]; simpl; [reflexivity | now rewrite IH].
Qed.

Lemma append_nil_r (a : string) : a ++ "" = a.
Proof.
  induction a as [|x a IH]; simpl; [reflexivity | now rewrite IH].
Qed.

Lemma truthy_some (s : string) :
  s <> "" -> Py.truthy (Some s) = true.
Proof.
  intros Hs. simpl. destruct (String.eqb_spec s ""); [contradiction | reflexivity].
Qed.

Lemma truthy_inv (o : option string) :
  Py.truthy o = true -> exists s, o = Some s /\ s <> "".
Proof.
  destruct o as [s|]; simpl; [|discriminate].
  destruct (String.eqb_spec s ""); [discriminate|].
  intros _. now exists s.
Qed.

End StringFacts.

Section DictFacts.

Context {V : Type}.

Lemma contains_pop (k : string) (d : Py.dict V) :
  Py.contains k (Py.pop k d) = false.
Proof.
  unfold Py.contains, Py.pop.
  induction d as [|[k' v] d IH]; simpl; [reflexivity|].
  destruct (String.eqb_spec k' k) as [->|Hne]; simpl; [exact IH|].
  destruct (String.eqb_spec k' k); [contradiction | exact IH].
Qed.

Lemma contains_pop_other (k k' : string) (d : Py.dict V) :
  k <> k' -> Py.contains k (Py.pop k' d) = Py.contains k d.
Proof.
  intros Hne. unfold Py.contains, Py.pop.
  induction d as [|[x v] d IH]; simpl; [reflexivity|].
  destruct (String.eqb_spec x k') as [->|Hx]; simpl.
  - destruct (String.eqb_spec k' k); [congruence | exact IH].
  - now rewrite IH.
Qed.

Lemma get_pop_other (k k' : string) (d : Py.dict V) :
  k <> k' -> Py.get k (Py.pop k' d) = Py.get k d.
Proof.
  intros Hne. unfold Py.pop.
  induction d as [|[x v] d IH]; simpl; [reflexivity|].
  destruct (String.eqb_spec x k') as [->|Hx]; simpl.
  - destruct (String.eqb_spec k' k); [congruence | exact IH].
  - now rewrite IH.
Qed.

Lemma pop_comm (k k' : string) (d : Py.dict V) :
  Py.pop k (Py.pop k' d) = Py.pop k' (Py.pop k d).
Proof.
  unfold Py.pop.
  induction d as [|[x v] d IH]; simpl; [reflexivity|].
  destruct (x =? k') eqn:E1, (x =? k) eqn:E2; simpl;
    rewrite ?E1, ?E2; simpl; now rewrite ?IH.
Qed.

End DictFacts.

(* ===================================================================== *)
(** ** Rendering the buffer *)
(* ===================================================================== *)

Section Rendering.

Lemma last_opt_snoc {A} (l : list A) (x : A) : last_opt (l ++ [x]) = Some x.
Proof. unfold last_opt. now rewrite rev_app_distr. Qed.

(** What the index arithmetic of the loop finds: at the head of
    [rest], behind the tokens [pre], the separator of the rule. *)
Lemma loop_separator (pre rest : list BaseCommand) (cmd : BaseCommand) :
  (if (length pre =? 0)%nat then ""
   else if is_special cmd then " "
   else if is_special (nth (length pre - 1) (pre ++ cmd :: rest) cmd)
        then " " else "; ")
  = separator_rule (last_opt pre) cmd.
Proof.
  induction pre as [|p pre' _] using rev_ind.
  - reflexivity.
  - rewrite last_opt_snoc, length_app. simpl.
    replace (length pre' + 1 - 1) with (length pre') by lia.
    rewrite <- app_assoc. simpl. rewrite nth_middle.
    destruct (length pre' + 1) eqn:E; [lia | reflexivity].
Qed.

(** The loop, started anywhere in the buffer, appends the fragments
    of what is left. *)
Lemma render_loop_fragments (rest pre : list BaseCommand) (output : string) :
  render_loop (pre ++ rest) (length pre) rest output
  = output ++ fragments (last_opt pre) rest.
Proof.
  revert pre output.
  induction rest as [|cmd rest IH]; intros pre output.
  - simpl. now rewrite append_nil_r.
  - cbn [render_loop fragments].
    rewrite loop_separator.
    replace (pre ++ cmd :: rest)%list with ((pre ++ [cmd]) ++ rest)%list
      by (now rewrite <- app_assoc).
    replace (S (length pre)) with (length (pre ++ [cmd]))
      by (rewrite length_app; simpl; lia).
    rewrite IH, last_opt_snoc.
    now rewrite !append_assoc.
Qed.

Lemma render_body_fragments (cmds : list BaseCommand) :
  render_body cmds = Py.strip (fragments None cmds) ++ ";".
Proof.
  unfold render_body.
  pose proof (render_loop_fragments cmds [] "") as H.
  simpl in H. now rewrite H.
Qed.

Lemma Sultan_str_layers (h : Host) (s : Sultan) :
  Sultan_str h s
  = context_wrap h (current_context s) (render_body (commands s)).
Proof. reflexivity. Qed.

Lemma context_wrap_plain (h : Host) (context : Context) (body : string) :
  plain_context context = true -> context_wrap h context body = body.
Proof.
  unfold plain_context, context_wrap, with_ssh, with_sudo, with_src, with_cwd.
  intros H.
  destruct (Py.truthy (cwd context)), (Py.truthy (src context)),
    (sudo context), (Py.truthy (hostname context));
    simpl in H; try discriminate; reflexivity.
Qed.

(** The four cases of the separator rule. *)
Lemma separator_rule_cases (p cmd : BaseCommand) :
  separator_rule None cmd = ""
  /\ (is_special cmd = true -> separator_rule (Some p) cmd = " ")
  /\ (is_special cmd = false -> is_special p = true ->
        separator_rule (Some p) cmd = " ")
  /\ (is_special cmd = false -> is_special p = false ->
        separator_rule (Some p) cmd = "; ").
Proof.
  repeat split; simpl.
  - intros H. now rewrite H.
  - intros H1 H2. now rewrite H1, H2.
  - intros H1 H2. now rewrite H1, H2.
Qed.

(** C1. For every buffer, under any context and host, the rendered
    line is the context wrapping of a body built by the separator
    rule [separator_rule]: nothing before the first token, one space
    before an operator token (pipe, and, or, redirect), one space
    before a plain command that follows an operator token, a semicolon
    and a space before a plain command that follows a plain command;
    the concatenation is stripped of surrounding white space and a
    semicolon is appended.  With no context on the stack the rendered
    line is that body. *)
Theorem render_separator_rule (h : Host) (s : Sultan) :
  Sultan_str h s
  = context_wrap h (current_context s)
      (Py.strip (fragments None (commands s)) ++ ";")
  /\ Sultan_str h {| commands := commands s; _context := [];
                     logging_activated := logging_activated s |}
     = Py.strip (fragments None (commands s)) ++ ";".
Proof.
  split.
  - now rewrite Sultan_str_layers, render_body_fragments.
  - rewrite Sultan_str_layers, render_body_fragments. reflexivity.
Qed.

End Rendering.

(* ===================================================================== *)
(** ** The context layers *)
(* ===================================================================== *)

Section ContextLayers.

Variable h : Host.

(** With a source file and a working directory the two prefixes are
    written in this order, whatever comes around them. *)
Lemma with_src_with_cwd (context : Context) (file dir body : string) :
  src context = Some file -> file <> "" ->
  cwd context = Some dir -> dir <> "" ->
  with_src context (with_cwd context body)
  = "source " ++ file ++ " && cd " ++ dir ++ " && " ++ body.
Proof.
  intros Hs Hf Hc Hd. unfold with_src, with_cwd.
  rewrite Hs, Hc, !truthy_some by assumption. simpl.
  now rewrite !append_assoc.
Qed.

(** C2, as amended. In every context where a source file and a working
    directory are set, the string [source <src> && cd <dir> && <body>;]
    (the cd prefix prepended first, the source prefix outside it) is
    what the sudo and ssh layers enclose, and it is the rendered line
    itself when the context asks neither for sudo nor for a host. *)
Theorem source_outside_cd (s : Sultan) (file dir : string) :
  src (current_context s) = Some file -> file <> "" ->
  cwd (current_context s) = Some dir -> dir <> "" ->
  Sultan_str h s
  = with_ssh (current_context s) (with_sudo h (current_context s)
      ("source " ++ file ++ " && cd " ++ dir ++ " && "
       ++ Py.strip (fragments None (commands s)) ++ ";"))
  /\ (sudo (current_context s) = false ->
      Py.truthy (hostname (current_context s)) = false ->
      Sultan_str h s
      = "source " ++ file ++ " && cd " ++ dir ++ " && "
        ++ Py.strip (fragments None (commands s)) ++ ";").
Proof.
  intros Hs Hf Hc Hd.
  assert (E : Sultan_str h s
    = with_ssh (current_context s) (with_sudo h (current_context s)
        ("source " ++ file ++ " && cd " ++ dir ++ " && "
         ++ Py.strip (fragments None (commands s)) ++ ";"))).
  { rewrite Sultan_str_layers, render_body_fragments. unfold context_wrap.
    now rewrite (with_src_with_cwd _ _ Hs Hf Hc Hd). }
  split; [exact E|].
  intros Hsudo Hhost. rewrite E. unfold with_ssh, with_sudo.
  now rewrite Hsudo, Hhost.
Qed.

(** C3. In every context that requests sudo, the body [B] (the rendered
    buffer behind its cd and source prefixes) is wrapped into [R], which
    the ssh layer then receives: [sudo su - <user> -c 'B'] when the
    context's user differs from the invoking user; otherwise
    [su - <user> -c 'B'] when the invoking user is root; otherwise
    [sudo B]. *)
Theorem sudo_wrapping (s : Sultan) :
  sudo (current_context s) = true ->
  exists B R : string,
    B = with_src (current_context s) (with_cwd (current_context s)
          (render_body (commands s)))
    /\ Sultan_str h s = with_ssh (current_context s) R
    /\ (Py.truthy (hostname (current_context s)) = false ->
        Sultan_str h s = R)
    /\ (user (current_context s) <> Some (getuser h) ->
        R = "sudo su - " ++ Py.str_opt (user (current_context s))
            ++ " -c '" ++ B ++ "'")
    /\ (user (current_context s) = Some (getuser h) ->
        getuser h = "root" ->
        R = "su - " ++ getuser h ++ " -c '" ++ B ++ "'")
    /\ (user (current_context s) = Some (getuser h) ->
        getuser h <> "root" ->
        R = "sudo " ++ B).
Proof.
  intros Hsudo.
  exists (with_src (current_context s) (with_cwd (current_context s)
            (render_body (commands s)))).
  exists (with_sudo h (current_context s)
            (with_src (current_context s) (with_cwd (current_context s)
               (render_body (commands s))))).
  split; [reflexivity|]. split; [reflexivity|].
  split.
  { intros Hhost. rewrite Sultan_str_layers. unfold context_wrap, with_ssh.
    now rewrite Hhost. }
  unfold with_sudo, user_differs. rewrite Hsudo.
  repeat split.
  - intros Hu. destruct (user (current_context s)) as [u|]; [|reflexivity].
    destruct (String.eqb_spec u (getuser h)) as [->|]; [congruence|reflexivity].
  - intros Hu Hroot. rewrite Hu. simpl.
    rewrite String.eqb_refl. simpl.
    destruct (String.eqb_spec (getuser h) "root"); [reflexivity|contradiction].
  - intros Hu Hroot. rewrite Hu. simpl.
    rewrite String.eqb_refl. simpl.
    destruct (String.eqb_spec (getuser h) "root"); [contradiction|reflexivity].
Qed.

(** C4. In every context with a host name, the line [B] produced by the
    inner layers is wrapped as [ssh<opts><user>@<hostname> 'B'], where
    [<opts>] is the option string between two spaces when there are
    options and one space when there are none. *)
Theorem ssh_wrapping (s : Sultan) (host : string) :
  hostname (current_context s) = Some host -> host <> "" ->
  exists B opts : string,
    B = with_sudo h (current_context s) (with_src (current_context s)
          (with_cwd (current_context s) (render_body (commands s))))
    /\ Sultan_str h s
       = "ssh" ++ opts ++ Py.str_opt (user (current_context s)) ++ "@"
         ++ host ++ " '" ++ B ++ "'"
    /\ (forall o, ssh_config (current_context s) = Some o -> o <> "" ->
        opts = " " ++ o ++ " ")
    /\ (Py.truthy (ssh_config (current_context s)) = false ->
        opts = " "
        /\ Sultan_str h s
           = "ssh " ++ Py.str_opt (user (current_context s)) ++ "@"
             ++ host ++ " '" ++ B ++ "'").
Proof.
  intros Hh Hne.
  exists (with_sudo h (current_context s) (with_src (current_context s)
            (with_cwd (current_context s) (render_body (commands s))))).
  exists (ssh_options (current_context s)).
  assert (E : Sultan_str h s
    = "ssh" ++ ssh_options (current_context s)
      ++ Py.str_opt (user (current_context s)) ++ "@" ++ host ++ " '"
      ++ with_sudo h (current_context s) (with_src (current_context s)
           (with_cwd (current_context s) (render_body (commands s))))
      ++ "'").
  { rewrite Sultan_str_layers. unfold context_wrap, with_ssh.
    now rewrite Hh, truthy_some by assumption. }
  split; [reflexivity|]. split; [exact E|]. split.
  - intros o Ho Hone. unfold ssh_options.
    now rewrite Ho, truthy_some by assumption.
  - intros Hno. unfold ssh_options in *. rewrite E, Hno. now split.
Qed.

End ContextLayers.

(** The composition example of the specification:
    [cwd=/tmp, sudo, user=root], invoked by [alice], body [touch x]. *)
Example render_root_touch :
  Sultan_str alice_host (builder root_context [touch_token])
  = "sudo su - root -c 'cd /tmp && touch x;'".
Proof. reflexivity. Qed.

(** The ssh example of the specification, around the body [ls;]. *)
Example render_remote_ls :
  Sultan_str alice_host (builder remote_context [ls_token])
  = "ssh bob@h.com 'ls;'".
Proof. reflexivity. Qed.

(** C2, as first stated, fails: with sudo requested for the invoking
    user, source file and working directory both set, the rendered line
    is not [source <src> && cd <dir> && <body>;]. *)
Lemma source_outside_cd_not_final :
  src (current_context (builder sourced_sudo_context [ls_token]))
    = Some "/etc/profile"
  /\ cwd (current_context (builder sourced_sudo_context [ls_token]))
    = Some "/tmp"
  /\ Sultan_str alice_host (builder sourced_sudo_context [ls_token])
     = "sudo source /etc/profile && cd /tmp && ls;"
  /\ Sultan_str alice_host (builder sourced_sudo_context [ls_token])
     <> "source /etc/profile && cd /tmp && ls;".
Proof.
  repeat split. vm_compute. discriminate.
Qed.

Lemma source_outside_cd_witness :
  Sultan_str alice_host (builder sourced_context [ls_token])
  = "source /etc/profile && cd /tmp && ls;".
Proof.
  destruct (@source_outside_cd alice_host (builder sourced_context [ls_token])
              "/etc/profile" "/tmp") as [_ H];
    [reflexivity | discriminate | reflexivity | discriminate |].
  exact (H eq_refl eq_refl).
Defined.

Lemma sudo_wrapping_witness :
  exists B R : string,
    B = "cd /tmp && touch x;"
    /\ Sultan_str alice_host (builder root_context [touch_token]) = R
    /\ R = "sudo su - root -c '" ++ B ++ "'".
Proof.
  destruct (@sudo_wrapping alice_host (builder root_context [touch_token])
              eq_refl) as (B & R & HB & _ & HR & Hdiff & _).
  exists B, R. split; [exact HB|]. split; [exact (HR eq_refl)|].
  rewrite (Hdiff ltac:(discriminate)). reflexivity.
Defined.

Lemma ssh_wrapping_witness :
  Sultan_str alice_host (builder remote_context [ls_token])
  = "ssh bob@h.com 'ls;'".
Proof.
  destruct (@ssh_wrapping alice_host (builder remote_context [ls_token])
              "h.com" eq_refl ltac:(discriminate))
    as (B & opts & HB & _ & _ & Hno).
  destruct (Hno eq_refl) as [_ E]. rewrite E, HB. reflexivity.
Defined.

(* ===================================================================== *)
(** ** Building tokens: [Redirect.__call__] and [Command.__call__] *)
(* ===================================================================== *)

Section Tokens.

(** C7. For every call of [redirect(to_file, append, stdout, stderr)]:
    with [stdout] and [stderr] both false it raises a configuration
    error and leaves the buffer (and everything else) as it was;
    otherwise it appends one token, which renders as the descriptor [d]
    ([1] for stdout only, [2] for stderr only, [&] for both), then [>],
    doubled when [append] is true, then one space and the target. *)
Theorem redirect_descriptor (self_ : BaseCommand) (to_file : Py.value)
    (append stdout stderr : bool) (m : Machine) :
  klass self_ = Redirect ->
  (stdout = false -> stderr = false ->
     exists e, Redirect_call self_ to_file append stdout stderr m = (Raise e, m)
               /\ is_configuration_error e = true)
  /\ (stdout || stderr = true ->
      exists (tok : BaseCommand) (d : string),
        Redirect_call self_ to_file append stdout stderr m
        = (Return tt, with_commands m (commands (self m) ++ [tok]))
        /\ token_str tok
           = d ++ (if append then ">>" else ">") ++ " " ++ Py.str to_file
        /\ (stdout = true -> stderr = false -> d = "1")
        /\ (stdout = false -> stderr = true -> d = "2")
        /\ (stdout = true -> stderr = true -> d = "&")).
Proof.
  intros Hk. split.
  - intros -> ->. eexists. split; reflexivity.
  - intros Hor.
    exists {| klass := klass self_;
              command := (((if stdout && stderr then "&"
                            else if stdout then "1" else "2") ++ ">")
                          ++ (if append then ">" else ""))
                         ++ " " ++ Py.str to_file;
              args := args self_; kwargs := kwargs self_ |}.
    exists (if stdout && stderr then "&" else if stdout then "1" else "2").
    split; [|split].
    + destruct stdout, stderr; try discriminate; reflexivity.
    + unfold token_str. cbn [klass command]. rewrite Hk.
      destruct stdout, stderr, append; reflexivity.
    + repeat split; intros -> ->; reflexivity.
Qed.

(** Prefixing the name of a plain command prefixes its rendering. *)
Lemma token_str_prefix (p name : string) (a : list string)
    (kw : Py.dict Py.value) :
  token_str {| klass := Command; command := p ++ name; args := a;
               kwargs := kw |}
  = p ++ token_str {| klass := Command; command := name; args := a;
                      kwargs := kw |}.
Proof.
  unfold token_str, Command_str. cbn [klass command args kwargs].
  destruct (negb (Py.strip (Py.join " " (map kwarg_flag kw)) =? ""));
    destruct (negb (Py.strip (Py.join " " a) =? ""));
    now rewrite ?append_assoc.
Qed.

Lemma locate_pop_sudo (h : Host) (name : string) (kw : Py.dict Py.value) :
  locate h name (Py.pop "sudo" kw) = locate h name kw.
Proof.
  unfold locate. rewrite get_pop_other by discriminate. reflexivity.
Qed.

(** C10. For every command made by attribute access and called with a
    keyword [sudo], whatever its value: the token appended is the token
    [plain] that the same call without that keyword appends, with
    [sudo ] written before the command name; the keyword is not among
    the token's options; and the token is the same in every machine,
    that is, under every context stack. *)
Theorem command_sudo_keyword (h : Host) (name : string)
    (a : list Py.value) (kw : Py.dict Py.value) (located : string) :
  (name =? "redirect") = false ->
  Py.contains "sudo" kw = true ->
  locate h (Py.replace_dunder name) kw = Return located ->
  exists tok plain : BaseCommand,
    (forall m : Machine,
       Command_call h (Sultan_getattr name) a kw m
       = (Return tt, with_commands m (commands (self m) ++ [tok]))
       /\ Command_call h (Sultan_getattr name) a (Py.pop "sudo" kw) m
          = (Return tt, with_commands m (commands (self m) ++ [plain])))
    /\ command plain = located
    /\ command tok = "sudo " ++ located
    /\ args tok = map Py.str a
    /\ kwargs tok = Py.pop "sudo" (Py.pop "where" kw)
    /\ kwargs plain = kwargs tok
    /\ Py.contains "sudo" (kwargs tok) = false
    /\ token_str tok = "sudo " ++ token_str plain.
Proof.
  intros Hname Hsudo Hloc.
  exists {| klass := Command; command := "sudo " ++ located;
            args := map Py.str a;
            kwargs := Py.pop "sudo" (Py.pop "where" kw) |}.
  exists {| klass := Command; command := located; args := map Py.str a;
            kwargs := Py.pop "sudo" (Py.pop "where" kw) |}.
  split; [|repeat split].
  - intros m. unfold Command_call, Sultan_getattr. rewrite Hname.
    cbn [BaseCommand_init command klass].
    rewrite locate_pop_sudo, Hloc.
    rewrite (contains_pop_other (k := "sudo") (k' := "where")) by discriminate.
    rewrite Hsudo.
    rewrite (pop_comm "where" "sudo"), contains_pop.
    split; reflexivity.
  - cbn [kwargs]. apply contains_pop.
  - apply (token_str_prefix "sudo ").
Qed.

(** The keyword and the context layer are independent: with sudo
    requested by the context for the invoking user and by the keyword,
    both are written. *)
Example render_sudo_twice :
  Sultan_str alice_host
    (self (snd (Command_call alice_host (Sultan_getattr "ls") []
                  [("sudo", Py.VBool false)]
                  (fresh (builder sourced_sudo_context [])))))
  = "sudo source /etc/profile && cd /tmp && sudo ls;".
Proof. reflexivity. Qed.

Lemma command_sudo_keyword_witness :
  exists tok : BaseCommand,
    snd (Command_call alice_host (Sultan_getattr "apt__get")
           [Py.VStr "update"] [("y", Py.VInt 1); ("sudo", Py.VNone)]
           (fresh (builder tmp_context [])))
    = with_commands (fresh (builder tmp_context [])) [tok]
    /\ token_str tok = "sudo apt-get -y=1 update".
Proof.
  destruct (@command_sudo_keyword alice_host "apt__get" [Py.VStr "update"]
              [("y", Py.VInt 1); ("sudo", Py.VNone)] "apt-get"
              eq_refl eq_refl eq_refl)
    as (tok & plain & Hcall & Hplain & Hcmd & Hargs & Hkw & _).
  exists tok. split.
  - destruct (Hcall (fresh (builder tmp_context []))) as [E _].
    rewrite E. reflexivity.
  - destruct tok as [k c ar kws]. cbn [command args kwargs] in *.
    destruct (Hcall (fresh (builder tmp_context []))) as [E _].
    vm_compute in E. injection E as Ek. subst. reflexivity.
Defined.

Lemma redirect_descriptor_witness :
  exists tok : BaseCommand,
    Redirect_call (Sultan_getattr "redirect") (Py.VStr "/tmp/out") true true
      false (fresh (builder tmp_context [ls_token]))
    = (Return tt, with_commands (fresh (builder tmp_context [ls_token]))
                    [ls_token; tok])
    /\ token_str tok = "1>> /tmp/out".
Proof.
  destruct (@redirect_descriptor (Sultan_getattr "redirect")
              (Py.VStr "/tmp/out") true true false
              (fresh (builder tmp_context [ls_token])) eq_refl)
    as [_ H].
  destruct (H eq_refl) as (tok & d & E & Hstr & H1 & _).
  exists tok. split; [exact E|].
  rewrite Hstr, (H1 eq_refl eq_refl). reflexivity.
Defined.

End Tokens.

(* ===================================================================== *)
(** ** Construction and its checks *)
(* ===================================================================== *)

Section Construction.

(** What [load] has checked and stored when it returns. *)
Lemma Sultan_load_inv (h : Host) (cwd_ : option string) (sudo_ : bool)
    (user_ hostname_ : option string) (env_ : option environ)
    (logging_ : bool) (ssh : ssh_config_arg) (src_ : option string)
    (s : Sultan) :
  Sultan_load h cwd_ sudo_ user_ hostname_ env_ logging_ ssh src_ = Return s ->
  Py.truthy src_ && negb (path_exists h (Py.str_opt src_)) = false
  /\ negb (Py.truthy user_) && getuser_raises h = false
  /\ exists options,
       match ssh with
       | SshInstance config =>
           Config_str SSHConfig_params_map config = Return options
       | _ => options = ""
       end
       /\ s = Sultan_init (Some
                 {| cwd := cwd_; sudo := sudo_; hostname := hostname_;
                    ssh_config := Some options;
                    env := match env_ with
                           | Some ((_ :: _) as given) => EnvMap given
                           | _ => EnvNone
                           end;
                    logging := logging_; src := src_;
                    user := if Py.truthy user_ then user_
                            else Some (getuser h) |}).
Proof.
  unfold Sultan_load. intros Hload.
  destruct ssh as [|config|shown]; [| |discriminate];
    destruct (Py.truthy src_ && negb (path_exists h (Py.str_opt src_)));
    try discriminate.
  - destruct (negb (Py.truthy user_) && getuser_raises h); [discriminate|].
    injection Hload as <-. split; [reflexivity|]. split; [reflexivity|].
    exists "". split; reflexivity.
  - destruct (Config_str SSHConfig_params_map config) as [options|e];
      [|discriminate].
    destruct (negb (Py.truthy user_) && getuser_raises h); [discriminate|].
    injection Hload as <-. split; [reflexivity|]. split; [reflexivity|].
    exists options. split; reflexivity.
Qed.

(** [locate] refuses a directory that does not exist and a command that
    is not in it. *)
Lemma locate_missing (h : Host) (name dir : string) (kw : Py.dict Py.value) :
  Py.get "where" kw = Some (Py.VStr dir) ->
  path_exists h dir = false
  \/ path_exists h (Py.path_join dir name) = false ->
  exists msg, locate h name kw = Raise (IOError msg).
Proof.
  intros Hget Hmiss. unfold locate. rewrite Hget. simpl.
  destruct (path_exists h dir) eqn:Hdir.
  - destruct Hmiss as [Hd|Hc]; [discriminate|].
    rewrite Hc. simpl. eexists. reflexivity.
  - eexists. reflexivity.
Qed.

(** C8, as amended. A source file given to [load] that does not exist,
    and a [where] directory, or the command located in it, given on a
    command that does not exist, raise a configuration error at once:
    [load] returns no builder, and the command call leaves the machine
    as it was, buffer and shell invocations included.  (A working
    directory given to [load] is not looked up.) *)
Theorem missing_path_rejected (h : Host) :
  (forall (cwd : option string) (sudo : bool) (user hostname : option string)
          (env : option environ) (logging : bool) (ssh : ssh_config_arg)
          (file : string),
     file <> "" -> path_exists h file = false ->
     exists e,
       Sultan_load h cwd sudo user hostname env logging ssh (Some file)
       = Raise e
       /\ is_configuration_error e = true)
  /\ (forall (self_ : BaseCommand) (a : list Py.value)
             (kw : Py.dict Py.value) (dir : string) (m : Machine),
        Py.get "where" kw = Some (Py.VStr dir) ->
        path_exists h dir = false
        \/ path_exists h (Py.path_join dir (command self_)) = false ->
        exists e,
          Command_call h self_ a kw m = (Raise e, m)
          /\ is_configuration_error e = true).
Proof.
  split.
  - intros cwd sudo user hostname env logging ssh file Hne Hmiss.
    unfold Sultan_load.
    destruct ssh as [|config|shown].
    + rewrite truthy_some by assumption. cbn [Py.str_opt]. rewrite Hmiss.
      eexists. split; reflexivity.
    + rewrite truthy_some by assumption. cbn [Py.str_opt]. rewrite Hmiss.
      eexists. split; reflexivity.
    + eexists. split; reflexivity.
  - intros self_ a kw dir m Hget Hmiss.
    destruct (locate_missing h (command self_) kw Hget Hmiss) as [msg E].
    exists (IOError msg). unfold Command_call, bind, lift. rewrite E.
    split; reflexivity.
Qed.

(** C8, as first stated, fails for the working directory: [load] takes
    a directory that does not exist and returns a builder. *)
Lemma load_accepts_missing_cwd :
  path_exists alice_host "/no/such/dir" = false
  /\ exists s : Sultan,
       Sultan_load alice_host (Some "/no/such/dir") false None None None
         true SshNothing None = Return s
       /\ cwd (current_context s) = Some "/no/such/dir".
Proof.
  split; [reflexivity|]. eexists. split; reflexivity.
Qed.

Lemma missing_path_rejected_witness :
  (exists e,
     Sultan_load alice_host None false None None None true SshNothing
       (Some "/etc/nothing") = Raise e
     /\ is_configuration_error e = true)
  /\ (exists e,
        Command_call alice_host (Sultan_getattr "ls") []
          [("where", Py.VStr "/opt/bin")] (fresh (Sultan_init None))
        = (Raise e, fresh (Sultan_init None))
        /\ is_configuration_error e = true).
Proof.
  destruct (missing_path_rejected alice_host) as [Hload Hcall]. split.
  - apply Hload; [discriminate | reflexivity].
  - apply (Hcall (Sultan_getattr "ls") [] [("where", Py.VStr "/opt/bin")]
             "/opt/bin"); [reflexivity | left; reflexivity].
Defined.

(** A located command that exists is taken. *)
Example locate_ls :
  locate alice_host "ls" [("where", Py.VStr "/usr/bin")]
  = Return "/usr/bin/ls".
Proof. reflexivity. Qed.

End Construction.

(* ===================================================================== *)
(** ** Rendering twice, clearing *)
(* ===================================================================== *)

Section Idempotence.

Variable h : Host.

Lemma render_body_nil : render_body [] = ";".
Proof. reflexivity. Qed.

(** A context that asks for no layer never makes rendering raise. *)
Lemma render_raises_plain (s : Sultan) :
  plain_context (current_context s) = true -> render_raises h s = None.
Proof.
  unfold plain_context, render_raises. intros H.
  destruct (sudo (current_context s)); [|reflexivity].
  rewrite andb_false_r in H. discriminate.
Qed.

(** C9, as amended. Rendering twice in a row gives the same outcome
    both times, the same line or the same exception, and changes
    nothing; clearing and then rendering gives [;] inside the layers of
    the active context (or the exception rendering raises under that
    context), and exactly [;] when that context asks for no layer (no
    cwd, no source file, no sudo, no host), as when the stack is
    empty. *)
Theorem render_twice_and_after_clear (m : Machine) :
  (a <- str_self h ;; b <- str_self h ;; ret (a, b)) m
  = (match render_raises h (self m) with
     | Some e => Raise e
     | None => Return (Sultan_str h (self m), Sultan_str h (self m))
     end, m)
  /\ (Sultan_clear ;;; str_self h) m
     = (match render_raises h (self m) with
        | Some e => Raise e
        | None => Return (context_wrap h (current_context (self m)) ";")
        end, with_commands m [])
  /\ (plain_context (current_context (self m)) = true ->
      (Sultan_clear ;;; str_self h) m = (Return ";", with_commands m [])).
Proof.
  assert (E : (Sultan_clear ;;; str_self h) m
              = (match render_raises h (self m) with
                 | Some e => Raise e
                 | None =>
                     Return (context_wrap h (current_context (self m)) ";")
                 end, with_commands m [])).
  { cbv beta iota zeta delta [bind Sultan_clear str_self get_self put_self
      raise ret].
    cbn [self].
    change (render_raises h
              {| commands := []; _context := _context (self m);
                 logging_activated := logging_activated (self m) |})
      with (render_raises h (self m)).
    destruct (render_raises h (self m)); reflexivity. }
  split; [|split; [exact E|]].
  - cbv beta iota zeta delta [bind str_self get_self raise ret].
    destruct (render_raises h (self m)) eqn:Hr; cbv beta iota;
      rewrite ?Hr; reflexivity.
  - intros Hplain. rewrite E, (render_raises_plain _ Hplain).
    now rewrite context_wrap_plain.
Qed.

End Idempotence.

(** C9, as first stated, fails under a context with a working
    directory: clearing and then rendering does not give [;]. *)
Lemma clear_then_render_cwd :
  (Sultan_clear ;;; str_self alice_host)
    (fresh (builder tmp_context [ls_token]))
  = (Return "cd /tmp && ;", fresh (builder tmp_context []))
  /\ "cd /tmp && ;" <> ";".
Proof.
  split; [reflexivity | discriminate].
Qed.

Lemma render_twice_and_after_clear_witness :
  Sultan_str alice_host (builder lang_context [ls_token; touch_token])
  = "ls; touch x;"
  /\ (Sultan_clear ;;; str_self alice_host)
       (fresh (builder lang_context [ls_token; touch_token]))
     = (Return ";", fresh (builder lang_context [])).
Proof.
  split; [reflexivity|].
  destruct (@render_twice_and_after_clear alice_host
              (fresh (builder lang_context [ls_token; touch_token])))
    as (_ & _ & H).
  exact (H eq_refl).
Defined.

(* ===================================================================== *)
(** ** Execution *)
(* ===================================================================== *)

Section Execution.

Variable h : Host.

(** When rendering raises, [run] raises the same before anything else
    is done: nothing is echoed, no shell is started, the buffer stays. *)
Lemma Sultan_run_render_raises (halt_on_nonzero quiet q : bool)
    (m : Machine) (e : exn) :
  render_raises h (self m) = Some e ->
  Sultan_run h halt_on_nonzero quiet q m = (Raise e, m).
Proof.
  intros Hr. unfold Sultan_run.
  cbv beta iota zeta delta [bind str_self get_self raise].
  now rewrite Hr.
Qed.

(** What one call of [run] does once the line is rendered, by the
    answer of the shell. *)
Lemma Sultan_run_cases (halt_on_nonzero quiet q : bool) (m : Machine) :
  render_raises h (self m) = None ->
  exists (r : outcome Result) (log : list echo_call),
    Sultan_run h halt_on_nonzero quiet q m
    = (r, {| self := {| commands := []; _context := _context (self m);
                        logging_activated := logging_activated (self m) |};
             echoed := log;
             spawned := spawned m
                        ++ [(Sultan_str h (self m), run_env h (self m))] |})
    /\ match shell h (Sultan_str h (self m)) (run_env h (self m)) with
       | Communicated out err =>
           r = Return (Result_init (Some out) (Some err) None)
       | PopenRaised tb =>
           r = if halt_on_nonzero then Raise (ShellException tb)
               else Return (Result_init None None (Some tb))
       end.
Proof.
  intros Hrender. unfold Sultan_run.
  cbv beta iota zeta delta [bind try_finally try_except str_self get_self ret
    echo Popen_communicate Sultan_clear put_self raise].
  rewrite Hrender. cbv beta iota.
  destruct (negb quiet && negb q); cbn [self echoed spawned fst snd];
    destruct (shell h (Sultan_str h (self m)) (run_env h (self m)))
      as [out err|tb]; cbn [self echoed spawned fst snd].
  1,3: destruct (Py.truthy (stdout (Result_init (Some out) (Some err) None)));
       [|destruct (Py.truthy (stderr (Result_init (Some out) (Some err) None)))];
       cbn [self echoed spawned _context logging_activated];
       eexists; eexists; split; reflexivity.
  all: destruct halt_on_nonzero;
       cbn [self echoed spawned _context logging_activated Py.truthy
            stdout stderr Result_init absent_if_empty];
       eexists; eexists; split; reflexivity.
Qed.

(** X29. Once the line is rendered, the command buffer is empty after
    [run] on each way out of the [try] block: when it returns a result
    after the shell communicated, when it returns a result that carries
    the traceback of a failed invocation (halt flag false), and when it
    raises that failure (halt flag true). *)
Theorem run_clears_buffer_once_rendered (halt_on_nonzero quiet q : bool)
    (m : Machine) :
  render_raises h (self m) = None ->
  commands (self (snd (Sultan_run h halt_on_nonzero quiet q m))) = []
  /\ match shell h (Sultan_str h (self m)) (run_env h (self m)) with
     | Communicated out err =>
         exists result,
           fst (Sultan_run h halt_on_nonzero quiet q m) = Return result
           /\ traceback result = None
     | PopenRaised tb =>
         if halt_on_nonzero then
           fst (Sultan_run h halt_on_nonzero quiet q m)
           = Raise (ShellException tb)
         else
           exists result,
             fst (Sultan_run h halt_on_nonzero quiet q m) = Return result
             /\ traceback result = Some tb
     end.
Proof.
  intros Hrender.
  destruct (Sultan_run_cases halt_on_nonzero quiet q m Hrender)
    as (r & log & E & Hr).
  rewrite E. cbn [fst snd self commands]. split; [reflexivity|].
  destruct (shell h (Sultan_str h (self m)) (run_env h (self m)))
    as [out err|tb].
  - eexists. split; [exact Hr | reflexivity].
  - destruct halt_on_nonzero; [exact Hr|].
    eexists. split; [exact Hr | reflexivity].
Qed.

(** With no context on the stack the child inherits the environment. *)
Lemma run_env_no_context (s : Sultan) :
  _context s = [] -> child_environment h (run_env h s) = os_environ h.
Proof.
  intros E. unfold run_env. now rewrite E.
Qed.

(** X26. A builder made by [load] runs the shell with the environment given
    to [load], and with the inherited one when none (or an empty one)
    was given. *)
Lemma run_env_loaded (cwd : option string) (sudo : bool)
    (user hostname : option string) (e : option environ) (logging : bool)
    (ssh : ssh_config_arg) (src : option string) (s : Sultan) :
  Sultan_load h cwd sudo user hostname e logging ssh src = Return s ->
  child_environment h (run_env h s)
  = match e with
    | Some ((_ :: _) as given) => given
    | _ => os_environ h
    end.
Proof.
  intros Hload.
  destruct (Sultan_load_inv _ _ _ _ _ _ _ _ _ Hload)
    as (_ & _ & options & _ & ->).
  destruct e as [[|kv given]|]; reflexivity.
Qed.

End Execution.

(** C5 fails when rendering raises: on a host without a login name, a
    builder that asks for sudo raises from [str(self)] on line 182,
    before the [try] block, so the [finally] block never runs; [run]
    raises with the buffer as it was and no shell started, whatever the
    halt flag is. *)
Theorem run_keeps_buffer_when_render_raises :
  render_raises nologin_host (builder deploy_context [ls_token])
  = Some getuser_error
  /\ Sultan_run nologin_host true false false
       (fresh (builder deploy_context [ls_token]))
     = (Raise getuser_error, fresh (builder deploy_context [ls_token]))
  /\ Sultan_run nologin_host false false false
       (fresh (builder deploy_context [ls_token]))
     = (Raise getuser_error, fresh (builder deploy_context [ls_token]))
  /\ commands (self (snd (Sultan_run nologin_host true false false
                            (fresh (builder deploy_context [ls_token])))))
     = [ls_token]
  /\ commands (self (snd (Sultan_run nologin_host true false false
                            (fresh (builder deploy_context [ls_token])))))
     <> [].
Proof.
  split; [reflexivity|]. split; [reflexivity|]. split; [reflexivity|].
  split; [reflexivity | discriminate].
Qed.

Lemma run_clears_buffer_once_rendered_witness :
  commands (self (snd (Sultan_run broken_host false false false
                         (fresh (builder root_context [touch_token])))))
  = []
  /\ exists result,
       fst (Sultan_run broken_host false false false
              (fresh (builder root_context [touch_token]))) = Return result
       /\ traceback result = Some ["OSError: cannot fork"].
Proof.
  exact (@run_clears_buffer_once_rendered broken_host false false false
           (fresh (builder root_context [touch_token])) eq_refl).
Defined.

(** C6 fails on a builder constructed with a context that has no key
    ['env']: no override is set in the active context, yet the shell is
    started with the empty environment instead of the inherited one. *)
Theorem run_env_missing_key_is_empty :
  env (current_context (builder tmp_context [ls_token])) = EnvMissing
  /\ spawned (snd (Sultan_run alice_host true false false
                     (fresh (builder tmp_context [ls_token]))))
     = [("cd /tmp && ls;", Some [])]
  /\ child_environment alice_host (Some []) = []
  /\ child_environment alice_host (Some []) <> os_environ alice_host.
Proof.
  repeat split. discriminate.
Qed.

(** An invocation that fails, propagated and handled. *)
Example run_broken_shell :
  Sultan_run broken_host true false false
    (fresh (builder tmp_context [ls_token]))
  = (Raise (ShellException ["OSError: cannot fork"]),
     {| self := builder tmp_context [];
        echoed := [EchoCmd "cd /tmp && ls;";
                   EchoCritical "Unable to run 'cd /tmp && ls;'";
                   PrintTraceback];
        spawned := [("cd /tmp && ls;", Some [])] |}).
Proof. reflexivity. Qed.

(* ===================================================================== *)
(** ** More on rendering *)
(* ===================================================================== *)

Section RenderingMore.

Lemma last_opt_cons {A} (x : A) (l : list A) :
  last_opt (x :: l)
  = match last_opt l with
    | Some y => Some y
    | None => Some x
    end.
Proof.
  induction l as [|y l _] using rev_ind.
  - reflexivity.
  - rewrite last_opt_snoc, app_comm_cons, last_opt_snoc. reflexivity.
Qed.

Lemma fragments_snoc (cmds : list BaseCommand) (prev : option BaseCommand)
    (tok : BaseCommand) :
  fragments prev (cmds ++ [tok])
  = fragments prev cmds
    ++ separator_rule (match last_opt cmds with
                       | Some p => Some p
                       | None => prev
                       end) tok
    ++ token_str tok.
Proof.
  revert prev. induction cmds as [|cmd cmds IH]; intros prev.
  - simpl. now rewrite append_nil_r.
  - cbn [app fragments]. rewrite IH, last_opt_cons.
    rewrite !append_assoc.
    destruct (last_opt cmds); reflexivity.
Qed.

(** X1. Adding a token extends what the loop of [__str__] writes: the text
    for the old buffer stays, the separator the last token calls for and
    the new token follow it. *)
Theorem render_loop_after_add (tok : BaseCommand) (m : Machine) :
  exists m',
    Sultan_add tok m = (Return tt, m')
    /\ render_loop (commands (self m')) 0 (commands (self m')) ""
       = render_loop (commands (self m)) 0 (commands (self m)) ""
         ++ separator_rule (last_opt (commands (self m))) tok
         ++ token_str tok.
Proof.
  eexists. split; [reflexivity|].
  cbn [self commands].
  pose proof (render_loop_fragments (commands (self m) ++ [tok]) [] "") as E1.
  pose proof (render_loop_fragments (commands (self m)) [] "") as E2.
  simpl in E1, E2. rewrite E1, E2, fragments_snoc.
  destruct (last_opt (commands (self m))); reflexivity.
Qed.

Lemma fragments_plain (cmds : list BaseCommand) (p : BaseCommand) :
  is_special p = false -> all_plain cmds = true ->
  fragments (Some p) cmds
  = match cmds with
    | [] => ""
    | _ :: _ => "; " ++ Py.join "; " (map token_str cmds)
    end.
Proof.
  revert p. induction cmds as [|cmd cmds IH]; intros p Hp Hall.
  - reflexivity.
  - cbn [all_plain forallb] in Hall. apply andb_prop in Hall as [Hc Hrest].
    apply negb_true_iff in Hc.
    cbn [fragments separator_rule]. rewrite Hc, Hp.
    rewrite (IH cmd Hc Hrest).
    destruct cmds as [|cmd' cmds]; [now rewrite append_nil_r|].
    cbn [map Py.join]. reflexivity.
Qed.

(** X2. A buffer of plain commands only renders as the commands joined by a
    semicolon and a space, stripped, with the closing semicolon. *)
Theorem render_body_plain (cmds : list BaseCommand) :
  all_plain cmds = true ->
  render_body cmds = Py.strip (Py.join "; " (map token_str cmds)) ++ ";".
Proof.
  intros Hall. rewrite render_body_fragments.
  destruct cmds as [|cmd cmds]; [reflexivity|].
  cbn [all_plain forallb] in Hall. apply andb_prop in Hall as [Hc Hrest].
  apply negb_true_iff in Hc.
  cbn [fragments separator_rule]. rewrite (fragments_plain cmds cmd Hc Hrest).
  destruct cmds as [|cmd' cmds]; [now rewrite append_nil_r|].
  reflexivity.
Qed.

(** X3. The rendered line is the rendered body between a prefix and a
    suffix that the active context and the host fix: the body is copied
    as it is, nothing in it is quoted or escaped. *)
Theorem render_prefix_body_suffix (h : Host) (s : Sultan) :
  Sultan_str h s
  = context_prefix h (current_context s) ++ render_body (commands s)
    ++ context_suffix h (current_context s).
Proof.
  rewrite Sultan_str_layers.
  unfold context_wrap, with_ssh, with_sudo, with_src, with_cwd,
    context_prefix, context_suffix.
  destruct (Py.truthy (hostname (current_context s)));
    destruct (sudo (current_context s));
    destruct (user_differs h (current_context s));
    destruct (getuser h =? "root");
    destruct (Py.truthy (src (current_context s)));
    destruct (Py.truthy (cwd (current_context s)));
    cbn [orb]; rewrite ?append_assoc; cbn [append]; rewrite ?append_nil_r;
    reflexivity.
Qed.

End RenderingMore.

Lemma render_body_plain_witness :
  render_body [ls_token; touch_token] = "ls; touch x;".
Proof.
  rewrite (@render_body_plain [ls_token; touch_token] eq_refl).
  reflexivity.
Defined.

(* ===================================================================== *)
(** ** Attribute access and command calls *)
(* ===================================================================== *)

Section CommandCalls.

(** [replace_dunder], one character at a time. *)
Lemma replace_dunder_eq (c : ascii) (r : string) :
  Py.replace_dunder (String c r)
  = if Ascii.eqb c "_" then
      match r with
      | String c' r' =>
          if Ascii.eqb c' "_" then String "-" (Py.replace_dunder r')
          else String "_" (Py.replace_dunder r)
      | EmptyString => String "_" (Py.replace_dunder r)
      end
    else String c (Py.replace_dunder r).
Proof.
  destruct c as [[] [] [] [] [] [] [] []]; try reflexivity.
  destruct r as [|c' r']; [reflexivity|].
  destruct c' as [[] [] [] [] [] [] [] []]; reflexivity.
Qed.

Lemma has_dunder_cons (c : ascii) (s : string) :
  has_dunder (String c s)
  = match s with
    | EmptyString => false
    | String c' _ => (Ascii.eqb c "_" && Ascii.eqb c' "_") || has_dunder s
    end.
Proof. reflexivity. Qed.

Lemma replace_dunder_clean_bounded (n : nat) (s : string) :
  String.length s <= n -> has_dunder (Py.replace_dunder s) = false.
Proof.
  revert s. induction n as [|n IH]; intros s Hlen.
  - destruct s; [reflexivity | simpl in Hlen; lia].
  - destruct s as [|c r]; [reflexivity|].
    simpl in Hlen. rewrite replace_dunder_eq.
    destruct (Ascii.eqb c "_") eqn:Hc.
    + destruct r as [|c' r'].
      * reflexivity.
      * destruct (Ascii.eqb c' "_") eqn:Hc'.
        -- rewrite has_dunder_cons.
           assert (Hr' : has_dunder (Py.replace_dunder r') = false)
             by (apply IH; simpl in Hlen; lia).
           destruct (Py.replace_dunder r'); [reflexivity | exact Hr'].
        -- assert (Hr : has_dunder (Py.replace_dunder (String c' r')) = false)
             by (apply IH; lia).
           rewrite has_dunder_cons.
           rewrite replace_dunder_eq, Hc' in *.
           cbn [Ascii.eqb]. rewrite Hc'. rewrite andb_false_r. exact Hr.
    + assert (Hr : has_dunder (Py.replace_dunder r) = false)
        by (apply IH; lia).
      rewrite has_dunder_cons.
      destruct (Py.replace_dunder r); [reflexivity|].
      rewrite Hc. exact Hr.
Qed.

Lemma replace_dunder_id (s : string) :
  has_dunder s = false -> Py.replace_dunder s = s.
Proof.
  induction s as [|c r IH]; [reflexivity|].
  rewrite has_dunder_cons, replace_dunder_eq.
  destruct r as [|c' r'].
  - intros _. destruct (Ascii.eqb_spec c "_") as [->|]; reflexivity.
  - intros H. apply orb_false_elim in H as [Hcc Hr].
    rewrite (IH Hr).
    destruct (Ascii.eqb_spec c "_") as [->|]; [|reflexivity].
    simpl in Hcc. now rewrite Hcc.
Qed.

(** X4. Attribute access with a name other than [redirect] makes a plain
    command whose name has no two underscores in a row left (each pair
    became a dash); a name without such a pair is taken as it is. *)
Theorem getattr_command_name (name : string) :
  (name =? "redirect") = false ->
  klass (Sultan_getattr name) = Command
  /\ has_dunder (command (Sultan_getattr name)) = false
  /\ (has_dunder name = false -> command (Sultan_getattr name) = name).
Proof.
  intros Hname. unfold Sultan_getattr. rewrite Hname.
  cbn [BaseCommand_init klass command]. split; [reflexivity|]. split.
  - apply (replace_dunder_clean_bounded (n := String.length name)). lia.
  - apply replace_dunder_id.
Qed.

Lemma get_none_of_contains {V} (k : string) (d : Py.dict V) :
  Py.contains k d = false -> Py.get k d = None.
Proof.
  unfold Py.contains. induction d as [|[k' v] d IH]; [reflexivity|].
  simpl. destruct (k' =? k); [discriminate | exact IH].
Qed.

Lemma get_some_contains {V} (k : string) (d : Py.dict V) (v : V) :
  Py.get k d = Some v -> Py.contains k d = true.
Proof.
  unfold Py.contains. induction d as [|[k' x] d IH]; [discriminate|].
  simpl. destruct (k' =? k); [reflexivity | exact IH].
Qed.

Lemma pop_absent {V} (k : string) (d : Py.dict V) :
  Py.contains k d = false -> Py.pop k d = d.
Proof.
  unfold Py.contains, Py.pop. induction d as [|[k' v] d IH]; [reflexivity|].
  simpl. destruct (k' =? k); [discriminate|].
  simpl. intros H. now rewrite IH.
Qed.

(** X5. A call [s.name(...)], on the token attribute access has just
    made, with positional arguments that [str] converts, is all or
    nothing: it appends exactly one plain command, with the positional
    arguments as strings and neither [where] nor [sudo] among its
    options, and touches nothing else; or it raises, which takes a
    [where] keyword, and leaves the machine as it was. *)
Theorem command_call_all_or_nothing (h : Host) (name : string)
    (a : list Py.value) (kw : Py.dict Py.value) (m : Machine) :
  (name =? "redirect") = false ->
  forallb Py.convertible a = true ->
  (exists tok,
     Command_call h (Sultan_getattr name) a kw m
     = (Return tt, with_commands m (commands (self m) ++ [tok]))
     /\ klass tok = Command
     /\ args tok = map Py.str a
     /\ Py.contains "where" (kwargs tok) = false
     /\ Py.contains "sudo" (kwargs tok) = false)
  \/ (exists e,
        Command_call h (Sultan_getattr name) a kw m = (Raise e, m)
        /\ Py.contains "where" kw = true).
Proof.
  intros Hname _. unfold Command_call, bind, lift, Sultan_getattr.
  rewrite Hname. cbn [BaseCommand_init klass command].
  destruct (locate h (Py.replace_dunder name) kw) as [located|e] eqn:Hloc.
  - left. eexists. split; [reflexivity|].
    cbn [klass args kwargs]. split; [reflexivity|]. split; [reflexivity|].
    destruct (Py.contains "sudo" (Py.pop "where" kw)) eqn:Hs.
    + split; [|apply contains_pop].
      rewrite contains_pop_other by discriminate. apply contains_pop.
    + split; [apply contains_pop | exact Hs].
  - right. exists e. split; [reflexivity|].
    unfold locate in Hloc.
    destruct (Py.get "where" kw) as [v|] eqn:Hget; [|discriminate].
    exact (get_some_contains _ _ Hget).
Qed.

(** X6. Without the keywords [where] and [sudo], a call [s.name(...)]
    with positional arguments that [str] converts cannot fail: the
    token has the name attribute access gave it and the keywords as
    given, in their order. *)
Theorem command_call_plain (h : Host) (name : string)
    (a : list Py.value) (kw : Py.dict Py.value) (m : Machine) :
  (name =? "redirect") = false ->
  forallb Py.convertible a = true ->
  Py.contains "where" kw = false ->
  Py.contains "sudo" kw = false ->
  Command_call h (Sultan_getattr name) a kw m
  = (Return tt,
     with_commands m
       (commands (self m)
        ++ [{| klass := Command; command := Py.replace_dunder name;
               args := map Py.str a; kwargs := kw |}])).
Proof.
  intros Hname _ Hw Hs. unfold Command_call, bind, lift, locate, Sultan_getattr.
  rewrite Hname. cbn [BaseCommand_init klass command].
  rewrite (get_none_of_contains _ _ Hw), (pop_absent _ _ Hw), Hs.
  reflexivity.
Qed.

Lemma length_append (a b : string) :
  String.length (a ++ b) = String.length a + String.length b.
Proof.
  induction a as [|c a IH]; simpl; [reflexivity | now rewrite IH].
Qed.

Lemma startswith_slash_eq (s : string) :
  Py.startswith "/" s
  = match s with
    | EmptyString => false
    | String c _ => Ascii.eqb c "/"
    end.
Proof.
  destruct s as [|c r]; [reflexivity|].
  unfold Py.startswith. cbn [String.prefix].
  destruct (ascii_dec "/" c) as [<-|Hne].
  - destruct r; reflexivity.
  - destruct (Ascii.eqb_spec c "/") as [->|]; [contradiction | reflexivity].
Qed.

Lemma startswith_slash_append (a b : string) :
  Py.startswith "/" a = true -> Py.startswith "/" (a ++ b) = true.
Proof.
  rewrite !startswith_slash_eq.
  destruct a as [|c a]; [discriminate | intros H; exact H].
Qed.

Lemma startswith_slash_append_false (a b : string) :
  a <> "" -> Py.startswith "/" a = false -> Py.startswith "/" (a ++ b) = false.
Proof.
  rewrite !startswith_slash_eq.
  destruct a as [|c a]; [contradiction | intros _ H; exact H].
Qed.

(** X7. With an absolute [where] directory that exists and holds the
    command, the command name becomes the path that was looked up. *)
Theorem locate_absolute (h : Host) (name dir : string)
    (kw : Py.dict Py.value) :
  Py.get "where" kw = Some (Py.VStr dir) ->
  Py.startswith "/" dir = true ->
  path_exists h dir = true ->
  path_exists h (Py.path_join dir name) = true ->
  locate h name kw = Return (Py.path_join dir name).
Proof.
  intros Hget Habs Hdir Hcmd. unfold locate. rewrite Hget. simpl.
  rewrite Hdir, Hcmd. simpl. f_equal.
  assert (Hs : Py.startswith "/" (Py.path_join dir name) = true).
  { unfold Py.path_join. destruct (Py.startswith "/" name) eqn:Hn;
      [exact Hn|].
    destruct ((dir =? "") || Py.endswith_slash dir);
      now apply startswith_slash_append. }
  unfold Py.path_join at 1. now rewrite Hs.
Qed.

(** X8. With a relative [where] directory the second [os.path.join] of
    lines 384-388 joins the directory once more: the command name that
    is kept is longer than the path that was looked up. *)
Theorem locate_relative (h : Host) (name dir : string)
    (kw : Py.dict Py.value) :
  Py.get "where" kw = Some (Py.VStr dir) ->
  dir <> "" ->
  Py.startswith "/" dir = false ->
  Py.startswith "/" name = false ->
  path_exists h dir = true ->
  path_exists h (Py.path_join dir name) = true ->
  exists located,
    locate h name kw = Return located
    /\ located = Py.path_join dir (Py.path_join dir name)
    /\ String.length (Py.path_join dir name) < String.length located
    /\ located <> Py.path_join dir name.
Proof.
  intros Hget Hne Hrel Hname Hdir Hcmd.
  exists (Py.path_join dir (Py.path_join dir name)).
  assert (Hlen : String.length (Py.path_join dir name)
                 < String.length (Py.path_join dir (Py.path_join dir name))).
  { assert (Hs : Py.startswith "/" (Py.path_join dir name) = false).
    { unfold Py.path_join. rewrite Hname.
      destruct ((dir =? "") || Py.endswith_slash dir);
        now apply startswith_slash_append_false. }
    unfold Py.path_join at 2. rewrite Hs.
    assert (0 < String.length dir) by (destruct dir; [contradiction | simpl; lia]).
    destruct ((dir =? "") || Py.endswith_slash dir);
      rewrite !length_append; simpl; lia. }
  split; [|split; [reflexivity | split; [exact Hlen|]]].
  - unfold locate. rewrite Hget. simpl. now rewrite Hdir, Hcmd.
  - intros E. rewrite E in Hlen. lia.
Qed.

(** X9. A [where] that is not a string never locates a command: the call
    raises and leaves the machine as it was. *)
Theorem command_call_where_not_string (h : Host) (self_ : BaseCommand)
    (a : list Py.value) (kw : Py.dict Py.value) (v : Py.value)
    (m : Machine) :
  Py.get "where" kw = Some v ->
  (forall p, v <> Py.VStr p) ->
  exists e, Command_call h self_ a kw m = (Raise e, m).
Proof.
  intros Hget Hv. unfold Command_call, bind, lift, locate. rewrite Hget.
  destruct v as [|b|z|p]; cbn [os_path_exists os_path_join].
  - eexists; reflexivity.
  - destruct (fd_exists h (if b then 1%Z else 0%Z)); eexists; reflexivity.
  - destruct ((z <? - 2 ^ 31) || (2 ^ 31 - 1 <? z))%Z;
      [|destruct (fd_exists h z)]; eexists; reflexivity.
  - exfalso. exact (Hv p eq_refl).
Qed.

Lemma lstrip_all_space (s : string) : all_space s = true -> Py.lstrip s = "".
Proof.
  induction s as [|c r IH]; [reflexivity|].
  simpl. intros H. apply andb_prop in H as [Hc Hr]. now rewrite Hc, IH.
Qed.

Lemma all_space_append (a b : string) :
  all_space a = true -> all_space b = true -> all_space (a ++ b) = true.
Proof.
  induction a as [|c a IH]; [now simpl|].
  simpl. intros H Hb. apply andb_prop in H as [Hc Ha]. now rewrite Hc, IH.
Qed.

Lemma all_space_join (parts : list string) :
  forallb all_space parts = true -> all_space (Py.join " " parts) = true.
Proof.
  induction parts as [|p rest IH]; [reflexivity|].
  cbn [forallb]. intros H. apply andb_prop in H as [Hp Hrest].
  destruct rest as [|p' rest]; [exact Hp|].
  change (Py.join " " (p :: p' :: rest))
    with (p ++ " " ++ Py.join " " (p' :: rest)).
  apply all_space_append; [exact Hp|].
  apply (all_space_append " "); [reflexivity | exact (IH Hrest)].
Qed.

(** X10. Positional arguments that are empty or white space only leave no
    trace: a command without options renders as its bare name. *)
Theorem command_str_blank_args (cmd : BaseCommand) :
  kwargs cmd = [] ->
  forallb all_space (args cmd) = true ->
  Command_str cmd = command cmd.
Proof.
  intros Hkw Hargs. unfold Command_str. rewrite Hkw. cbn [map].
  unfold Py.strip at 1.
  rewrite (lstrip_all_space _ (all_space_join _ Hargs)).
  reflexivity.
Qed.

End CommandCalls.

Lemma getattr_command_name_witness :
  command (Sultan_getattr "apt__get") = "apt-get"
  /\ has_dunder (command (Sultan_getattr "apt__get")) = false.
Proof.
  destruct (@getattr_command_name "apt__get" eq_refl) as (_ & H & _).
  split; [reflexivity | exact H].
Defined.

Lemma command_call_all_or_nothing_witness :
  exists e,
    Command_call alice_host (Sultan_getattr "ls") [Py.VStr "-l"]
      [("where", Py.VStr "/opt/bin")] (fresh (builder tmp_context [ls_token]))
    = (Raise e, fresh (builder tmp_context [ls_token])).
Proof.
  destruct (@command_call_all_or_nothing alice_host "ls" [Py.VStr "-l"]
              [("where", Py.VStr "/opt/bin")]
              (fresh (builder tmp_context [ls_token])) eq_refl eq_refl)
    as [(tok & E & _)|(e & E & _)].
  - discriminate E.
  - exists e. exact E.
Defined.

Lemma command_call_plain_witness :
  Command_call alice_host (Sultan_getattr "grep") [Py.VStr "abc"; Py.VInt 3]
    [("i", Py.VBool true)] (fresh (builder tmp_context [ls_token]))
  = (Return tt,
     with_commands (fresh (builder tmp_context [ls_token]))
       [ls_token;
        {| klass := Command; command := "grep"; args := ["abc"; "3"];
           kwargs := [("i", Py.VBool true)] |}]).
Proof.
  exact (@command_call_plain alice_host "grep" [Py.VStr "abc"; Py.VInt 3]
           [("i", Py.VBool true)] (fresh (builder tmp_context [ls_token]))
           eq_refl ltac:(vm_compute; reflexivity) eq_refl eq_refl).
Defined.

Lemma locate_absolute_witness :
  locate alice_host "ls" [("where", Py.VStr "/usr/bin")]
  = Return "/usr/bin/ls".
Proof.
  exact (@locate_absolute alice_host "ls" "/usr/bin"
           [("where", Py.VStr "/usr/bin")] eq_refl eq_refl eq_refl eq_refl).
Defined.

Lemma command_call_where_not_string_witness :
  exists e,
    Command_call alice_host (Sultan_getattr "ls") []
      [("where", Py.VNone)] (fresh (Sultan_init None))
    = (Raise e, fresh (Sultan_init None)).
Proof.
  apply (@command_call_where_not_string alice_host (Sultan_getattr "ls") []
           [("where", Py.VNone)] Py.VNone (fresh (Sultan_init None)) eq_refl).
  intros p. discriminate.
Defined.

Lemma command_str_blank_args_witness :
  Command_str {| klass := Command; command := "ls"; args := [""; "  "];
                 kwargs := [] |} = "ls".
Proof.
  exact (@command_str_blank_args
           {| klass := Command; command := "ls"; args := [""; "  "];
              kwargs := [] |} eq_refl eq_refl).
Defined.

Lemma locate_relative_witness :
  locate relative_host "ls" [("where", Py.VStr "bin")] = Return "bin/bin/ls".
Proof.
  destruct (@locate_relative relative_host "ls" "bin"
              [("where", Py.VStr "bin")] eq_refl ltac:(discriminate)
              eq_refl eq_refl eq_refl eq_refl)
    as (located & E & -> & _).
  exact E.
Defined.

(* ===================================================================== *)
(** ** The configuration helper *)
(* ===================================================================== *)

Section Configuration.

Lemma forallb_pointwise {A} (f g : A -> bool) (l : list A) :
  (forall x, f x = g x) -> forallb f l = forallb g l.
Proof.
  intros H. induction l as [|x l IH]; [reflexivity|].
  simpl. now rewrite H, IH.
Qed.

Lemma check_required_ok (params_map : Py.dict param)
    (config : Py.dict Py.value) :
  check_required params_map config = Return tt
  <-> all_required params_map config = true.
Proof.
  unfold all_required.
  induction params_map as [|[key key_config] rest IH]; [now simpl|].
  cbn [check_required forallb fst snd].
  destruct (required key_config); destruct (Py.contains key config);
    cbn [negb andb orb]; try exact IH.
  split; discriminate.
Qed.

Lemma check_known_ok (params_map : Py.dict param)
    (config : Py.dict Py.value) :
  check_known params_map (map fst config) = Return tt
  <-> all_known params_map config = true.
Proof.
  unfold all_known.
  induction config as [|[key value] rest IH]; [now simpl|].
  cbn [map check_known forallb fst].
  destruct (Py.contains key params_map); cbn [negb andb]; try exact IH.
  split; discriminate.
Qed.

(** When validation accepts, and what it reports first. *)
Lemma validate_config_spec (params_map : Py.dict param)
    (config : Py.dict Py.value) :
  (validate_config params_map config = Return tt
   <-> all_required params_map config = true
       /\ all_known params_map config = true)
  /\ (all_required params_map config = false ->
      validate_config params_map config
      = Raise (ValueError
          "Invalid Configuration! Required parameter '%s' was not provided to Sultan.")).
Proof.
  unfold validate_config. split.
  - destruct (check_required params_map config) as [[]|e] eqn:Hreq.
    + rewrite check_known_ok. apply check_required_ok in Hreq.
      split; [intros H; now split | intros [_ H]; exact H].
    + split; [discriminate|]. intros [H _].
      apply check_required_ok in H. congruence.
  - intros Hmiss.
    assert (Hraise : forall pm,
              all_required pm config = false ->
              check_required pm config
              = Raise (ValueError
                  "Invalid Configuration! Required parameter '%s' was not provided to Sultan.")).
    { induction pm as [|[key key_config] rest IH]; [discriminate|].
      unfold all_required. cbn [check_required forallb fst snd].
      destruct (required key_config); destruct (Py.contains key config);
        cbn [negb andb orb]; try exact IH.
      reflexivity. }
    now rewrite (Hraise params_map Hmiss).
Qed.

(** The keys an [SSHConfig] takes. *)
Lemma SSHConfig_init_spec (config : Py.dict Py.value) :
  Config_init SSHConfig_params_map config = Return config
  <-> forallb (fun kv => (fst kv =? "identity_file") || (fst kv =? "port"))
        config = true.
Proof.
  unfold Config_init.
  destruct (validate_config SSHConfig_params_map config) as [[]|e] eqn:Hv.
  - split; [intros _ | reflexivity].
    apply (proj1 (validate_config_spec _ _)) in Hv as [_ Hk].
    unfold all_known in Hk.
    rewrite (forallb_pointwise _
               (fun kv => Py.contains (fst kv) SSHConfig_params_map));
      [exact Hk|].
    intros [k v]. unfold Py.contains, SSHConfig_params_map.
    cbn [existsb fst].
    now rewrite orb_false_r, (String.eqb_sym "identity_file"),
      (String.eqb_sym "port").
  - split; [discriminate|]. intros Hall. exfalso.
    assert (Hok : validate_config SSHConfig_params_map config = Return tt).
    { apply (proj1 (validate_config_spec _ _)). split; [reflexivity|].
      unfold all_known.
      rewrite (forallb_pointwise _
                 (fun kv => (fst kv =? "identity_file") || (fst kv =? "port")));
        [exact Hall|].
      intros [k v]. unfold Py.contains, SSHConfig_params_map.
      cbn [existsb fst].
      now rewrite orb_false_r, (String.eqb_sym "identity_file"),
        (String.eqb_sym "port"). }
    congruence.
Qed.



Lemma ssh_config_words (config : Py.dict Py.value) (output : list string) :
  forallb (fun kv => (fst kv =? "identity_file") || (fst kv =? "port"))
    config = true ->
  config_words SSHConfig_params_map config output
  = Return (output ++ ssh_words config)%list.
Proof.
  revert output. induction config as [|[key value] rest IH]; intros output H.
  - simpl. now rewrite app_nil_r.
  - cbn [forallb fst] in H. apply andb_prop in H as [Hkey Hrest].
    cbn [config_words]. unfold ssh_words. cbn [flat_map fst snd].
    unfold SSHConfig_params_map, Py.get.
    rewrite (String.eqb_sym "identity_file" key), (String.eqb_sym "port" key).
    destruct (key =? "identity_file") eqn:E1.
    + cbn [shorthand]. rewrite (IH _ Hrest). unfold ssh_words.
      now rewrite <- app_assoc.
    + simpl in Hkey. rewrite Hkey. cbn [shorthand].
      rewrite (IH _ Hrest). unfold ssh_words. now rewrite <- app_assoc.
Qed.

(** X14. The option string of an accepted [SSHConfig]: for each entry, in
    the order given, [-i] or [-p] and the value, joined by spaces. *)
Theorem SSHConfig_str (config : Py.dict Py.value) :
  Config_init SSHConfig_params_map config = Return config ->
  Config_str SSHConfig_params_map config
  = Return (Py.join " " (ssh_words config)).
Proof.
  intros Hinit. apply SSHConfig_init_spec in Hinit.
  unfold Config_str. now rewrite (ssh_config_words config [] Hinit).
Qed.


(** X11. Validation accepts a configuration exactly when every required
    parameter is supplied and every supplied key is a known parameter;
    a missing required parameter is reported before an unknown key. *)
Theorem validate_config_accepts (params_map : Py.dict param)
    (config : Py.dict Py.value) :
  (validate_config params_map config = Return tt
   <-> all_required params_map config = true
       /\ all_known params_map config = true)
  /\ (all_required params_map config = false ->
      validate_config params_map config
      = Raise (ValueError
          "Invalid Configuration! Required parameter '%s' was not provided to Sultan.")).
Proof.
  destruct (validate_config_spec params_map config) as [Hiff Hfirst].
  split; [exact Hiff | exact Hfirst].
Qed.

(** X12. An [SSHConfig] is accepted exactly when each of its keys is
    [identity_file] or [port]; no key is required, so the empty
    configuration is accepted. *)
Theorem SSHConfig_accepts (config : Py.dict Py.value) :
  Config_init SSHConfig_params_map config = Return config
  <-> forallb (fun kv => (fst kv =? "identity_file") || (fst kv =? "port"))
        config = true.
Proof.
  destruct (SSHConfig_init_spec config) as [Hto Hfrom].
  split; [exact Hto | exact Hfrom].
Qed.

End Configuration.


Lemma SSHConfig_str_witness :
  Config_str SSHConfig_params_map
    [("port", Py.VInt 22); ("identity_file", Py.VStr "/home/alice/.ssh/id")]
  = Return "-p 22 -i /home/alice/.ssh/id".
Proof.
  rewrite (@SSHConfig_str
             [("port", Py.VInt 22);
              ("identity_file", Py.VStr "/home/alice/.ssh/id")] eq_refl).
  reflexivity.
Defined.

Lemma validate_config_accepts_witness :
  validate_config [("host", {| shorthand := "-h"; required := true |})]
    [("color", Py.VBool true)]
  = Raise (ValueError
      "Invalid Configuration! Required parameter '%s' was not provided to Sultan.").
Proof.
  destruct (@validate_config_accepts
              [("host", {| shorthand := "-h"; required := true |})]
              [("color", Py.VBool true)]) as [_ H].
  exact (H eq_refl).
Defined.

Lemma SSHConfig_accepts_witness :
  Config_init SSHConfig_params_map [("port", Py.VInt 2222)]
  = Return [("port", Py.VInt 2222)].
Proof.
  exact (proj2 (@SSHConfig_accepts [("port", Py.VInt 2222)]) eq_refl).
Defined.

(* ===================================================================== *)
(** ** Loading a builder and the [with] block *)
(* ===================================================================== *)

Section Loading.

Variable h : Host.

(** X15. What [load] hands back when it returns: an empty buffer and one
    context that stores the arguments as given, with the invoking user
    in place of a missing or empty [user], an environment entry that is
    never missing, and a source file that exists if one was given. *)
Theorem load_postcondition (cwd_ : option string) (sudo_ : bool)
    (user_ hostname_ : option string) (env_ : option environ)
    (logging_ : bool) (ssh : ssh_config_arg) (src_ : option string)
    (s : Sultan) :
  Sultan_load h cwd_ sudo_ user_ hostname_ env_ logging_ ssh src_ = Return s ->
  commands s = []
  /\ logging_activated s = logging_
  /\ exists c,
       _context s = [c]
       /\ cwd c = cwd_ /\ sudo c = sudo_ /\ hostname c = hostname_
       /\ src c = src_ /\ logging c = logging_
       /\ user c = (if Py.truthy user_ then user_ else Some (getuser h))
       /\ Py.truthy (user c) = Py.truthy user_ || negb (getuser h =? "")
       /\ env c <> EnvMissing
       /\ (Py.truthy src_ = true -> path_exists h (Py.str_opt src_) = true).
Proof.
  intros Hload.
  destruct (Sultan_load_inv _ _ _ _ _ _ _ _ _ Hload)
    as (Hsrc & _ & options & _ & ->).
  split; [reflexivity|]. split; [reflexivity|].
  eexists. split; [reflexivity|]. cbn [cwd sudo hostname src logging user env].
  repeat split.
  - destruct (Py.truthy user_) eqn:Hu; [exact Hu | reflexivity].
  - destruct env_ as [[|kv rest]|]; discriminate.
  - intros Ht. rewrite Ht in Hsrc. simpl in Hsrc.
    now apply negb_false_iff in Hsrc.
Qed.


End Loading.

Section WithBlock.

Variable h : Host.

(** X17. [__enter__] only checks: it raises [InvalidContextError] exactly
    when the context stack is empty, and never changes the machine. *)
Theorem enter_checks_context (m : Machine) :
  (_context (self m) = [] ->
   exists msg, Sultan_enter m = (Raise (InvalidContextError msg), m))
  /\ (_context (self m) <> [] -> Sultan_enter m = (Return tt, m)).
Proof.
  unfold Sultan_enter, bind, get_self, raise, ret. split.
  - intros ->. eexists. reflexivity.
  - intros Hne. destruct (_context (self m)); [contradiction | reflexivity].
Qed.

(** X18. [__exit__] never raises and removes exactly the top context: the
    contexts below it, the buffer and the logs stay; on an empty stack
    it does nothing. *)
Theorem exit_pops_one_context (m : Machine) :
  exists m',
    Sultan_exit m = (Return tt, m')
    /\ commands (self m') = commands (self m)
    /\ echoed m' = echoed m /\ spawned m' = spawned m
    /\ _context (self m') = removelast (_context (self m))
    /\ (forall below top, _context (self m) = (below ++ [top])%list ->
        _context (self m') = below)
    /\ (_context (self m) = [] -> m' = m).
Proof.
  unfold Sultan_exit, bind, get_self, put_self, ret.
  destruct (_context (self m)) as [|c rest] eqn:Hctx.
  - exists m. cbn [length Nat.ltb Nat.leb]. repeat split; try reflexivity.
    + now rewrite Hctx.
    + intros below top E. destruct below; discriminate.
  - eexists. cbn [length Nat.ltb Nat.leb]. split; [reflexivity|].
    cbn [self commands echoed spawned _context].
    repeat split; try reflexivity.
    + intros below top E. rewrite E. apply removelast_last.
    + discriminate.
Qed.

(** X19. A loaded builder goes through one [with] block only: entering
    succeeds, leaving empties the context stack, after which the
    builder renders its buffer without any wrapping and a second
    [__enter__] raises [InvalidContextError]. *)
Theorem with_block_consumes_context (cwd_ : option string) (sudo_ : bool)
    (user_ hostname_ : option string) (env_ : option environ)
    (logging_ : bool) (ssh : ssh_config_arg) (src_ : option string)
    (s : Sultan) (cmds : list BaseCommand) :
  Sultan_load h cwd_ sudo_ user_ hostname_ env_ logging_ ssh src_ = Return s ->
  Sultan_enter (fresh (with_buffer s cmds))
  = (Return tt, fresh (with_buffer s cmds))
  /\ Sultan_exit (fresh (with_buffer s cmds))
     = (Return tt,
        fresh {| commands := cmds; _context := [];
                 logging_activated := logging_activated s |})
  /\ Sultan_str h {| commands := cmds; _context := [];
                     logging_activated := logging_activated s |}
     = render_body cmds
  /\ exists msg,
       Sultan_enter (fresh {| commands := cmds; _context := [];
                              logging_activated := logging_activated s |})
       = (Raise (InvalidContextError msg),
          fresh {| commands := cmds; _context := [];
                   logging_activated := logging_activated s |}).
Proof.
  intros Hload.
  assert (Hone : exists c, _context s = [c]).
  { destruct (Sultan_load_inv _ _ _ _ _ _ _ _ _ Hload)
      as (_ & _ & options & _ & ->).
    eexists. reflexivity. }
  destruct Hone as [c Hc].
  unfold Sultan_enter, Sultan_exit, bind, get_self, put_self, raise, ret,
    fresh, with_buffer.
  cbn [self _context commands logging_activated]. rewrite Hc.
  repeat split. eexists. reflexivity.
Qed.

(** X20. A builder loaded with sudo and without a user never takes the
    [sudo su -] form: the context's user is the invoking user, so the
    body is wrapped as [su - root -c '...'] when root invokes and as
    [sudo ...] otherwise. *)
Theorem load_sudo_default_user (cwd_ : option string)
    (user_ : option string) (env_ : option environ) (logging_ : bool)
    (src_ : option string) (s : Sultan) (cmds : list BaseCommand) :
  Sultan_load h cwd_ true user_ None env_ logging_ SshNothing src_
  = Return s ->
  Py.truthy user_ = false ->
  Sultan_str h (with_buffer s cmds)
  = if getuser h =? "root" then
      "su - root -c '"
      ++ with_src (current_context s)
           (with_cwd (current_context s) (render_body cmds)) ++ "'"
    else
      "sudo " ++ with_src (current_context s)
                   (with_cwd (current_context s) (render_body cmds)).
Proof.
  intros Hload Huser.
  destruct (Sultan_load_inv _ _ _ _ _ _ _ _ _ Hload)
    as (_ & _ & options & _ & ->).
  rewrite Huser.
  rewrite Sultan_str_layers. unfold context_wrap, with_ssh, with_sudo,
    user_differs, with_buffer, current_context, Sultan_init.
  cbn [_context length Nat.ltb Nat.leb last hostname sudo user Py.truthy
       Py.str_opt commands].
  rewrite String.eqb_refl. cbn [negb].
  destruct (String.eqb_spec (getuser h) "root") as [->|]; reflexivity.
Qed.

End WithBlock.

Lemma enter_checks_context_witness :
  exists msg,
    Sultan_enter (fresh (Sultan_init None))
    = (Raise (InvalidContextError msg), fresh (Sultan_init None)).
Proof.
  exact (proj1 (@enter_checks_context (fresh (Sultan_init None))) eq_refl).
Defined.

Lemma exit_pops_one_context_witness :
  exists m',
    Sultan_exit (fresh {| commands := [ls_token];
                          _context := [tmp_context; root_context];
                          logging_activated := false |})
    = (Return tt, m')
    /\ _context (self m') = [tmp_context].
Proof.
  destruct (@exit_pops_one_context
              (fresh {| commands := [ls_token];
                        _context := [tmp_context; root_context];
                        logging_activated := false |}))
    as (m' & E & _ & _ & _ & _ & Hpop & _).
  exists m'. split; [exact E|].
  exact (Hpop [tmp_context] root_context eq_refl).
Defined.

Lemma load_postcondition_witness :
  exists c,
    _context (builder
                {| cwd := Some "/tmp"; sudo := false; hostname := None;
                   ssh_config := Some ""; env := EnvNone; logging := true;
                   src := None; user := Some "alice" |} []) = [c]
    /\ user c = Some "alice".
Proof.
  destruct (@load_postcondition alice_host (Some "/tmp") false None None
              (Some []) true SshNothing None
              (builder
                 {| cwd := Some "/tmp"; sudo := false; hostname := None;
                    ssh_config := Some ""; env := EnvNone; logging := true;
                    src := None; user := Some "alice" |} []) eq_refl)
    as (_ & _ & c & Hc & _ & _ & _ & _ & _ & Hu & _).
  exists c. split; [exact Hc | exact Hu].
Defined.


Lemma with_block_consumes_context_witness :
  Sultan_str alice_host
    {| commands := [ls_token]; _context := []; logging_activated := true |}
  = "ls;".
Proof.
  destruct (@with_block_consumes_context alice_host (Some "/tmp") true None
              None None true SshNothing None
              (Sultan_init (Some
                 {| cwd := Some "/tmp"; sudo := true; hostname := None;
                    ssh_config := Some ""; env := EnvNone; logging := true;
                    src := None; user := Some "alice" |}))
              [ls_token] eq_refl)
    as (_ & _ & H & _).
  exact H.
Defined.

Lemma load_sudo_default_user_witness :
  Sultan_str alice_host
    (with_buffer
       (Sultan_init (Some
          {| cwd := None; sudo := true; hostname := None;
             ssh_config := Some ""; env := EnvNone; logging := true;
             src := None; user := Some "alice" |}))
       [ls_token])
  = "sudo ls;".
Proof.
  rewrite (@load_sudo_default_user alice_host None None None true None
             (Sultan_init (Some
                {| cwd := None; sudo := true; hostname := None;
                   ssh_config := Some ""; env := EnvNone; logging := true;
                   src := None; user := Some "alice" |}))
             [ls_token] eq_refl eq_refl).
  reflexivity.
Defined.

(* ===================================================================== *)
(** ** More on execution *)
(* ===================================================================== *)

Section ExecutionMore.

Variable h : Host.

(** The machine one call of [run] leaves once the line is rendered. *)
Lemma Sultan_run_machine (halt_on_nonzero quiet q : bool) (m : Machine) :
  render_raises h (self m) = None ->
  snd (Sultan_run h halt_on_nonzero quiet q m)
  = {| self := {| commands := []; _context := _context (self m);
                  logging_activated := logging_activated (self m) |};
       echoed := (echoed m
                  ++ run_echo_calls quiet q (Sultan_str h (self m))
                       (shell h (Sultan_str h (self m)) (run_env h (self m))))%list;
       spawned := (spawned m
                   ++ [(Sultan_str h (self m), run_env h (self m))])%list |}.
Proof.
  intros Hrender. unfold Sultan_run, run_echo_calls.
  cbv beta iota zeta delta [bind try_finally try_except str_self get_self ret
    echo Popen_communicate Sultan_clear put_self raise].
  rewrite Hrender. cbv beta iota.
  destruct (negb quiet && negb q); cbn [self echoed spawned fst snd];
    destruct (shell h (Sultan_str h (self m)) (run_env h (self m)))
      as [out err|tb]; cbn [self echoed spawned fst snd].
  1,3: destruct out as [|c out], err as [|c' err];
       cbv beta iota zeta delta [Result_init absent_if_empty Py.truthy stdout
         stderr String.eqb negb snd self echoed spawned _context
         logging_activated];
       rewrite <- ?app_assoc, ?app_nil_r; reflexivity.
  all: destruct halt_on_nonzero;
       cbn [self echoed spawned _context logging_activated Py.truthy
            stdout stderr Result_init absent_if_empty snd];
       rewrite <- ?app_assoc; reflexivity.
Qed.

(** X21. A call of [run] whose line renders starts the shell exactly
    once, with that line, and keeps the context stack and the logging
    flag, whatever the shell answers; a call whose rendering raises
    raises the same, starts no shell and changes nothing. *)
Theorem run_invokes_shell_once (halt_on_nonzero quiet q : bool)
    (m : Machine) :
  match render_raises h (self m) with
  | None =>
      spawned (snd (Sultan_run h halt_on_nonzero quiet q m))
      = (spawned m ++ [(Sultan_str h (self m), run_env h (self m))])%list
      /\ _context (self (snd (Sultan_run h halt_on_nonzero quiet q m)))
         = _context (self m)
      /\ logging_activated
           (self (snd (Sultan_run h halt_on_nonzero quiet q m)))
         = logging_activated (self m)
  | Some e => Sultan_run h halt_on_nonzero quiet q m = (Raise e, m)
  end.
Proof.
  destruct (render_raises h (self m)) as [e|] eqn:Hrender.
  - now apply Sultan_run_render_raises.
  - rewrite (Sultan_run_machine _ _ _ _ Hrender). repeat split.
Qed.

(** X22. The command line, once rendered, is echoed first, unless
    [quiet] or [q] is set, in which case it is not echoed at all; when
    rendering raises nothing is echoed. *)
Theorem run_echoes_command (halt_on_nonzero quiet q : bool) (m : Machine) :
  exists log,
    echoed (snd (Sultan_run h halt_on_nonzero quiet q m))
    = (echoed m ++ log)%list
    /\ (quiet || q = true -> existsb is_echo_cmd log = false)
    /\ (quiet || q = false ->
        match render_raises h (self m) with
        | None => exists rest, log = EchoCmd (Sultan_str h (self m)) :: rest
        | Some _ => log = []
        end).
Proof.
  destruct (render_raises h (self m)) as [e|] eqn:Hrender.
  { rewrite (Sultan_run_render_raises h _ _ _ m Hrender). cbn [snd].
    exists []. rewrite app_nil_r. repeat split. }
  rewrite (Sultan_run_machine _ _ _ _ Hrender). cbn [echoed].
  eexists. split; [reflexivity|].
  unfold run_echo_calls. split.
  - intros Hq.
    assert (E : negb quiet && negb q = false)
      by (destruct quiet, q; try discriminate; reflexivity).
    rewrite E. cbn [app].
    destruct (shell h (Sultan_str h (self m)) (run_env h (self m)))
      as [out err|tb]; [|reflexivity].
    destruct (negb (out =? "")); [reflexivity|].
    destruct (negb (err =? "")); reflexivity.
  - intros Hq. apply orb_false_elim in Hq as [-> ->]. cbn [negb andb app].
    eexists. reflexivity.
Qed.

(** X23. The captured stderr is printed only when the line was
    rendered, the shell communicated, wrote nothing to stdout and
    something to stderr; a result with stdout is returned without
    looking at stderr, and the failure path prints neither stream. *)
Theorem run_prints_stderr (halt_on_nonzero quiet q : bool) (m : Machine) :
  exists log,
    echoed (snd (Sultan_run h halt_on_nonzero quiet q m))
    = (echoed m ++ log)%list
    /\ existsb is_print_stderr log
       = match render_raises h (self m) with
         | Some _ => false
         | None =>
             match shell h (Sultan_str h (self m)) (run_env h (self m)) with
             | Communicated out err => (out =? "") && negb (err =? "")
             | PopenRaised _ => false
             end
         end
    /\ ~ In PrintStdout log.
Proof.
  destruct (render_raises h (self m)) as [e|] eqn:Hrender.
  { rewrite (Sultan_run_render_raises h _ _ _ m Hrender). cbn [snd].
    exists []. rewrite app_nil_r. repeat split. intros []. }
  rewrite (Sultan_run_machine _ _ _ _ Hrender). cbn [echoed].
  eexists. split; [reflexivity|].
  unfold run_echo_calls.
  destruct (shell h (Sultan_str h (self m)) (run_env h (self m)))
    as [out err|tb];
    destruct (negb quiet && negb q); cbn [app];
    try (destruct (out =? ""); cbn [negb andb];
         [destruct (err =? "")|]; cbn [negb]);
    (split; [reflexivity|]); cbn [In]; intros Hin;
    repeat (destruct Hin as [Hin|Hin]; try discriminate); exact Hin.
Qed.

(** X24. With the halt flag off, [run] raises only what rendering
    raises before the [try] block; once the line is rendered it returns
    a result, whatever the shell answers, which carries a traceback
    exactly when the invocation raised. *)
Theorem run_without_halt_returns (quiet q : bool) (m : Machine) :
  match render_raises h (self m) with
  | Some e => fst (Sultan_run h false quiet q m) = Raise e
  | None =>
      exists result,
        fst (Sultan_run h false quiet q m) = Return result
        /\ (traceback result = None
            <-> exists out err,
                  shell h (Sultan_str h (self m)) (run_env h (self m))
                  = Communicated out err)
  end.
Proof.
  destruct (render_raises h (self m)) as [e|] eqn:Hrender.
  { now rewrite (Sultan_run_render_raises h _ _ _ m Hrender). }
  destruct (Sultan_run_cases h false quiet q m Hrender)
    as (r & log & E & Hr).
  rewrite E. cbn [fst].
  destruct (shell h (Sultan_str h (self m)) (run_env h (self m)))
    as [out err|tb]; subst r; eexists; (split; [reflexivity|]).
  - split; [intros _; now exists out, err | reflexivity].
  - split; [discriminate | intros (out & err & Habs); discriminate].
Qed.

(** X25. Calling the builder itself does nothing on an empty buffer,
    not even rendering; on a non-empty buffer whose line renders it
    runs the buffer once and leaves it empty, returning when the shell
    communicated and raising when the invocation failed; when rendering
    raises it raises the same and the buffer stays as it was. *)
Theorem call_runs_buffer (m : Machine) :
  (commands (self m) = [] -> Sultan_call h m = (Return tt, m))
  /\ (commands (self m) <> [] ->
      match render_raises h (self m) with
      | Some e => Sultan_call h m = (Raise e, m)
      | None =>
          commands (self (snd (Sultan_call h m))) = []
          /\ _context (self (snd (Sultan_call h m))) = _context (self m)
          /\ spawned (snd (Sultan_call h m))
             = (spawned m
                ++ [(Sultan_str h (self m), run_env h (self m))])%list
          /\ fst (Sultan_call h m)
             = match shell h (Sultan_str h (self m)) (run_env h (self m)) with
               | Communicated _ _ => Return tt
               | PopenRaised tb => Raise (ShellException tb)
               end
      end).
Proof.
  assert (Hcall : Sultan_call h m
                  = match commands (self m) with
                    | [] => (Return tt, m)
                    | _ :: _ =>
                        match Sultan_run h true false false m with
                        | (Return _, m') => Sultan_clear m'
                        | (Raise e, m') => (Raise e, m')
                        end
                    end).
  { unfold Sultan_call, bind, get_self, ret.
    destruct (commands (self m)); reflexivity. }
  rewrite Hcall. split.
  - intros ->. reflexivity.
  - intros Hne. destruct (commands (self m)) as [|c rest]; [contradiction|].
    destruct (render_raises h (self m)) as [e|] eqn:Hrender.
    { now rewrite (Sultan_run_render_raises h _ _ _ m Hrender). }
    destruct (Sultan_run_cases h true false false m Hrender)
      as (r & log & E & Hr).
    rewrite E.
    destruct (shell h (Sultan_str h (self m)) (run_env h (self m)))
      as [out err|tb]; subst r; cbn [fst snd];
      repeat split.
Qed.

End ExecutionMore.

Lemma run_echoes_command_witness :
  exists log,
    echoed (snd (Sultan_run alice_host true true false
                   (fresh (builder tmp_context [ls_token])))) = log
    /\ existsb is_echo_cmd log = false.
Proof.
  destruct (@run_echoes_command alice_host true true false
              (fresh (builder tmp_context [ls_token])))
    as (log & E & Hquiet & _).
  exists log. split; [rewrite E; reflexivity | exact (Hquiet eq_refl)].
Defined.

Lemma call_runs_buffer_witness :
  Sultan_call alice_host (fresh (builder tmp_context [ls_token; touch_token]))
  = (Return tt,
     {| self := builder tmp_context [];
        echoed := [EchoCmd "cd /tmp && ls; touch x;"];
        spawned := [("cd /tmp && ls; touch x;", Some [])] |})
  /\ commands
       (self (snd (Sultan_call alice_host
                     (fresh (builder tmp_context [ls_token; touch_token])))))
     = [].
Proof.
  split; [reflexivity|].
  destruct (@call_runs_buffer alice_host
              (fresh (builder tmp_context [ls_token; touch_token])))
    as [_ H].
  exact (proj1 (H ltac:(discriminate))).
Defined.

Lemma run_env_loaded_witness :
  child_environment alice_host
    (run_env alice_host
       (builder
          {| cwd := None; sudo := false; hostname := None;
             ssh_config := Some ""; env := EnvMap [("LANG", "C")];
             logging := true; src := None; user := Some "alice" |} []))
  = [("LANG", "C")].
Proof.
  apply (@run_env_loaded alice_host None false None None
           (Some [("LANG", "C")]) true SshNothing None).
  reflexivity.
Defined.

(* ===================================================================== *)
(** ** Operators between commands, options of a remote builder *)
(* ===================================================================== *)

Section Composition.

Lemma last_opt_none {A} (l : list A) : last_opt l = None -> l = [].
Proof.
  induction l as [|x l _] using rev_ind; [reflexivity|].
  rewrite last_opt_snoc. discriminate.
Qed.

Lemma fragments_operator_command (cmds : list BaseCommand)
    (op tok : BaseCommand) :
  is_special op = true -> is_special tok = false ->
  fragments None (cmds ++ [op; tok])
  = fragments None cmds
    ++ match cmds with [] => "" | _ :: _ => " " end
    ++ token_str op ++ " " ++ token_str tok.
Proof.
  intros Hop Htok.
  replace (cmds ++ [op; tok])%list with ((cmds ++ [op]) ++ [tok])%list
    by (now rewrite <- app_assoc).
  rewrite fragments_snoc, last_opt_snoc, fragments_snoc.
  cbn [separator_rule]. rewrite Htok, Hop.
  destruct (last_opt cmds) as [p|] eqn:Hlast.
  - cbn [separator_rule]. rewrite Hop.
    destruct cmds; [discriminate|]. now rewrite !append_assoc.
  - apply last_opt_none in Hlast. subst cmds. reflexivity.
Qed.

Lemma operator_then_add (o tok : BaseCommand) (m : Machine) :
  is_special o = true -> is_special tok = false ->
  (Sultan_add o ;;; Sultan_add tok) m
  = (Return tt, with_commands m ((commands (self m) ++ [o]) ++ [tok]))
  /\ loop_text (snd ((Sultan_add o ;;; Sultan_add tok) m))
     = loop_text m
       ++ match commands (self m) with [] => "" | _ :: _ => " " end
       ++ token_str o ++ " " ++ token_str tok.
Proof.
  intros Ho Htok. split; [reflexivity|].
  unfold loop_text. cbn [snd self commands Sultan_add bind].
  pose proof (render_loop_fragments
                ((commands (self m) ++ [o]) ++ [tok]) [] "") as E1.
  pose proof (render_loop_fragments (commands (self m)) [] "") as E2.
  cbn [app length] in E1, E2.
  change (snd ((Sultan_add o ;;; Sultan_add tok) m))
    with (with_commands m ((commands (self m) ++ [o]) ++ [tok])).
  cbn [with_commands self commands].
  rewrite E1, E2, <- app_assoc.
  apply (fragments_operator_command (commands (self m)) o tok Ho Htok).
Qed.

(** X27. [pipe()], [and_()] and [or_()] followed by a plain command extend
    what the loop of [__str__] writes by the operator between single
    spaces and the command; on an empty buffer the operator comes first
    with no space before it.  No semicolon is written. *)
Theorem operator_then_command (tok : BaseCommand) (m : Machine) :
  is_special tok = false ->
  loop_text (snd ((Sultan_pipe ;;; Sultan_add tok) m))
  = loop_text m
    ++ match commands (self m) with [] => "" | _ :: _ => " " end
    ++ "| " ++ token_str tok
  /\ loop_text (snd ((Sultan_and_ ;;; Sultan_add tok) m))
     = loop_text m
       ++ match commands (self m) with [] => "" | _ :: _ => " " end
       ++ "&& " ++ token_str tok
  /\ loop_text (snd ((Sultan_or_ ;;; Sultan_add tok) m))
     = loop_text m
       ++ match commands (self m) with [] => "" | _ :: _ => " " end
       ++ "|| " ++ token_str tok.
Proof.
  intros Htok. repeat split.
  - exact (proj2 (operator_then_add (BaseCommand_init Pipe "|") tok m
                    eq_refl Htok)).
  - exact (proj2 (operator_then_add (BaseCommand_init And "&&") tok m
                    eq_refl Htok)).
  - exact (proj2 (operator_then_add (BaseCommand_init Or "||") tok m
                    eq_refl Htok)).
Qed.

(** X28. The options of an accepted [SSHConfig] given to [load] come out in
    the ssh wrapping: between [ssh] and the target stand the flags and
    values of the configuration, in order, or one space for an empty
    configuration; the target's user is the one given, or the invoking
    user. *)
Theorem load_ssh_options (h : Host) (cwd_ : option string) (sudo_ : bool)
    (user_ : option string) (host : string) (env_ : option environ)
    (logging_ : bool) (config : Py.dict Py.value) (src_ : option string)
    (s : Sultan) (cmds : list BaseCommand) :
  Config_init SSHConfig_params_map config = Return config ->
  host <> "" ->
  Sultan_load h cwd_ sudo_ user_ (Some host) env_ logging_
    (SshInstance config) src_ = Return s ->
  Sultan_str h (with_buffer s cmds)
  = "ssh"
    ++ (if Py.join " " (ssh_words config) =? "" then " "
        else " " ++ Py.join " " (ssh_words config) ++ " ")
    ++ Py.str_opt (if Py.truthy user_ then user_ else Some (getuser h))
    ++ "@" ++ host ++ " '"
    ++ with_sudo h (current_context s)
         (with_src (current_context s)
            (with_cwd (current_context s) (render_body cmds)))
    ++ "'".
Proof.
  intros Hcfg Hhost Hload. apply SSHConfig_init_spec in Hcfg.
  destruct (Sultan_load_inv _ _ _ _ _ _ _ _ _ Hload)
    as (_ & _ & options & Hopt & ->).
  unfold Config_str in Hopt.
  rewrite (ssh_config_words config [] Hcfg) in Hopt. cbn [app] in Hopt.
  injection Hopt as <-.
  rewrite Sultan_str_layers. unfold context_wrap, with_ssh, ssh_options.
  unfold with_buffer, current_context, Sultan_init.
  cbn [_context length Nat.ltb Nat.leb last hostname ssh_config user
       commands Py.str_opt].
  rewrite (truthy_some Hhost). cbn [Py.truthy].
  destruct (Py.join " " (ssh_words config) =? ""); reflexivity.
Qed.

End Composition.

Lemma operator_then_command_witness :
  loop_text (snd ((Sultan_pipe ;;; Sultan_add touch_token)
                    (fresh (builder tmp_context [ls_token]))))
  = "ls | touch x".
Proof.
  destruct (@operator_then_command touch_token
              (fresh (builder tmp_context [ls_token])) eq_refl)
    as (Hpipe & _ & _).
  rewrite Hpipe. reflexivity.
Defined.

Lemma load_ssh_options_witness :
  Sultan_str alice_host
    (with_buffer
       (Sultan_init (Some
          {| cwd := None; sudo := false; hostname := Some "h.com";
             ssh_config := Some "-p 22"; env := EnvNone; logging := true;
             src := None; user := Some "bob" |}))
       [ls_token])
  = "ssh -p 22 bob@h.com 'ls;'".
Proof.
  rewrite (@load_ssh_options alice_host None false (Some "bob") "h.com" None
             true [("port", Py.VInt 22)] None
             (Sultan_init (Some
                {| cwd := None; sudo := false; hostname := Some "h.com";
                   ssh_config := Some "-p 22"; env := EnvNone;
                   logging := true; src := None; user := Some "bob" |}))
             [ls_token] eq_refl ltac:(discriminate) eq_refl).
  reflexivity.
Defined.
